(** * AudioInsights AI: the upload / inference / export flow of [App.tsx]

    A shallow embedding of the React component [App] (src/App.tsx), of
    [analyzeAudio] (services/geminiService) and of [types.ts], together
    with the parts of the JavaScript platform they call: string [split]
    and [trim], truthiness, template-literal conversion, property reads,
    and [JSON.parse].

    Strings are byte strings holding UTF-8 text.  Values that come out of
    [JSON.parse] are untyped ([JSValue]): the cast [as AnalysisResult] of
    the source checks nothing at run time. *)

From Stdlib Require Import ZArith List String Ascii Bool Lia.
Import ListNotations.
Set Warnings "-register-all".
Set Warnings "-notation-overridden".
Set Warnings "-notation-incompatible-prefix".
Local Open Scope list_scope.
Local Open Scope string_scope.

(* ===================================================================== *)
(** ** JavaScript values and errors *)
(* ===================================================================== *)

Module JS.

(** A run-time value.  A number keeps the literal it was read from; what
    the code needs of its value is computed from the literal. *)
Inductive JSValue : Type :=
| JUndefined
| JNull
| JBool (b : bool)
| JNumber (literal : string)
| JString (s : string)
| JArray (items : list JSValue)
| JObject (fields : list (string * JSValue)).

(** What a [throw] carries. *)
Inductive JSError : Type :=
| Error (message : string)            (* [new Error(message)] *)
| SyntaxError                         (* raised by [JSON.parse] *)
| TypeError                           (* read of a property of null/undefined, call of a non-function *)
| InvalidChild                        (* React: an object is not a valid child *)
| Rejection (message : option string) (* the SDK or the network rejected the call *).

(** How an expression ends: with a value or with a [throw]. *)
Inductive Completion (A : Type) : Type :=
| Normal (a : A)
| Throw (e : JSError).
Arguments Normal {A} a.
Arguments Throw {A} e.

Definition bind {A B : Type} (c : Completion A) (k : A -> Completion B) : Completion B :=
  match c with
  | Normal a => k a
  | Throw e => Throw e
  end.

Notation "x <- c ;; k" := (bind c (fun x => k))
  (at level 61, c at next level, right associativity).

(** *** Strings *)

Definition code (c : ascii) : N := N_of_ascii c.

Definition comma : ascii := ascii_of_N 44.
Definition dot : ascii := ascii_of_N 46.
Definition LF : string := String (ascii_of_N 10) EmptyString.

(** [s.split(sep)] for a one-character separator: never empty. *)
Fixpoint split (sep : ascii) (s : string) : list string :=
  match s with
  | EmptyString => [EmptyString]
  | String c rest =>
      match split sep rest with
      | [] => [String c EmptyString]
      | seg :: segs =>
          if Ascii.eqb c sep then EmptyString :: seg :: segs
          else String c seg :: segs
      end
  end.

(** [parts.join(sep)]. *)
Fixpoint join (sep : string) (parts : list string) : string :=
  match parts with
  | [] => EmptyString
  | [p] => p
  | p :: ps => p ++ sep ++ join sep ps
  end.

(** The white space and line terminators of [String.prototype.trim]:
    TAB LF VT FF CR SP in one byte, U+00A0 in two, and U+1680,
    U+2000..U+200A, U+2028, U+2029, U+202F, U+205F, U+3000 and U+FEFF in
    three bytes of UTF-8. *)
Definition ws1 (a : N) : bool :=
  ((a =? 9) || (a =? 10) || (a =? 11) || (a =? 12) || (a =? 13) || (a =? 32))%N.

Definition ws2 (a b : N) : bool := ((a =? 194) && (b =? 160))%N.

Definition ws3 (a b c : N) : bool :=
  ((a =? 225) && (b =? 154) && (c =? 128)
   || (a =? 226) && (b =? 128)
      && ((128 <=? c) && (c <=? 138) || (c =? 168) || (c =? 169) || (c =? 175))
   || (a =? 226) && (b =? 129) && (c =? 159)
   || (a =? 227) && (b =? 128) && (c =? 128)
   || (a =? 239) && (b =? 187) && (c =? 191))%N.

(** Length in bytes of the white space that starts [l], 0 when there is
    none. *)
Definition ws_len (l : list N) : nat :=
  match l with
  | a :: r =>
      if ws1 a then 1
      else match r with
           | b :: r' =>
               if ws2 a b then 2
               else match r' with
                    | c :: _ => if ws3 a b c then 3 else 0
                    | [] => 0
                    end
           | [] => 0
           end
  | [] => 0
  end.

(** The same read backwards, on the reversed text. *)
Definition ws_len_rev (l : list N) : nat :=
  match l with
  | a :: r =>
      if ws1 a then 1
      else match r with
           | b :: r' =>
               if ws2 b a then 2
               else match r' with
                    | c :: _ => if ws3 c b a then 3 else 0
                    | [] => 0
                    end
           | [] => 0
           end
  | [] => 0
  end.

Fixpoint strip (wl : list N -> nat) (fuel : nat) (l : list N) : list N :=
  match fuel with
  | O => l
  | S fuel' =>
      match wl l with
      | O => l
      | k => strip wl fuel' (skipn k l)
      end
  end.

Definition codes (s : string) : list N := map code (list_ascii_of_string s).
Definition of_codes (l : list N) : string := string_of_list_ascii (map ascii_of_N l).

(** [s.trim()]. *)
Definition trim (s : string) : string :=
  let l := strip ws_len (String.length s) (codes s) in
  of_codes (rev (strip ws_len_rev (List.length l) (rev l))).

(** *** Truthiness *)

Definition is_digit (c : ascii) : bool := ((48 <=? code c) && (code c <=? 57))%N.

(** The digits of a JSON number literal up to its exponent mark, as one
    integer, and how many of them follow the decimal point. *)
Fixpoint mantissa (s : string) (seen_point : bool) (m : Z) (frac : Z) : Z * Z * string :=
  match s with
  | EmptyString => (m, frac, EmptyString)
  | String c rest =>
      if is_digit c then
        mantissa rest seen_point (10 * m + Z.of_N (code c - 48))
                 (if seen_point then frac + 1 else frac)
      else if (code c =? 46)%N then mantissa rest true m frac
      else if (code c =? 45)%N then mantissa rest seen_point m frac
      else (m, frac, rest)
  end.

Fixpoint exponent (s : string) (neg : bool) (e : Z) : Z :=
  match s with
  | EmptyString => if neg then (- e)%Z else e
  | String c rest =>
      if is_digit c then exponent rest neg (10 * e + Z.of_N (code c - 48))
      else if (code c =? 45)%N then exponent rest true e
      else exponent rest neg e
  end.

(** Does the literal denote a number that reads as the double 0?  Either
    every digit is 0, or the magnitude is at most 2^-1075, half of the
    least positive double, which rounds to 0. *)
Definition number_is_zero (literal : string) : bool :=
  let '(m, frac, rest) := mantissa literal false 0 0 in
  let e := (exponent rest false 0 - frac)%Z in
  ((m =? 0) || ((e <? 0) && (m * 2 ^ 1075 <=? 10 ^ (- e))))%Z.

(** [!!v]. *)
Definition truthy (v : JSValue) : bool :=
  match v with
  | JUndefined | JNull => false
  | JBool b => b
  | JNumber literal => negb (number_is_zero literal)
  | JString s => negb (String.eqb s "")
  | JArray _ | JObject _ => true
  end.

(** [s || fallback] on a value that is a string or missing. *)
Definition or_else (s : option string) (fallback : string) : string :=
  match s with
  | Some (String c r) => String c r
  | _ => fallback
  end.

(** *** Property reads *)

(** Own property of an object literal; of two members with one key the
    later wins, as in [JSON.parse]. *)
Fixpoint own (fields : list (string * JSValue)) (key : string) : option JSValue :=
  match fields with
  | [] => None
  | (k, v) :: rest =>
      match own rest key with
      | Some v' => Some v'
      | None => if String.eqb k key then Some v else None
      end
  end.

(** [v.key], for the keys this program reads ([transcription],
    [executiveSummary], [actionItems], [sentiment], [sentimentReasoning],
    [task], [assignee]): none of them is found on a built-in prototype,
    so only an object's own members answer. *)
Definition get (v : JSValue) (key : string) : Completion JSValue :=
  match v with
  | JUndefined | JNull => Throw TypeError
  | JObject fields =>
      match own fields key with
      | Some x => Normal x
      | None => Normal JUndefined
      end
  | _ => Normal JUndefined
  end.

(** *** Conversion to text *)

(** [`${v}`].  [None] stands for a text this embedding does not compute:
    the decimal form of a double. *)
Fixpoint ToString (v : JSValue) : option string :=
  match v with
  | JUndefined => Some "undefined"
  | JNull => Some "null"
  | JBool true => Some "true"
  | JBool false => Some "false"
  | JNumber _ => None
  | JString s => Some s
  | JArray items =>
      let fix elems (l : list JSValue) : option (list string) :=
        match l with
        | [] => Some []
        | x :: r =>
            let t := match x with
                     | JUndefined | JNull => Some ""
                     | _ => ToString x
                     end in
            match t, elems r with
            | Some t', Some r' => Some (t' :: r')
            | _, _ => None
            end
        end in
      option_map (join ",") (elems items)
  | JObject _ => Some "[object Object]"
  end.

End JS.

(* ===================================================================== *)
(** ** [JSON.parse] *)
(* ===================================================================== *)

Module JSON.
Import JS.

Inductive Token : Type :=
| TLBrace | TRBrace | TLBracket | TRBracket | TColon | TComma
| TString (s : string)
| TNumber (literal : string)
| TWord (v : JSValue).            (* true, false, null *)

(** Where the scanner stands inside a number literal: an optional minus,
    then 0 or a digit 1-9 followed by digits, then an optional point with
    one digit or more, then an optional e or E with an optional sign and
    one digit or more. *)
Inductive NumState : Type :=
| NMinus | NZero | NInt | NPoint | NFrac | NExp | NExpSign | NExpDigits.

Definition num_final (n : NumState) : bool :=
  match n with
  | NZero | NInt | NFrac | NExpDigits => true
  | _ => false
  end.

Definition digit (c : N) : bool := ((48 <=? c) && (c <=? 57))%N.
Definition exp_mark (c : N) : bool := ((c =? 101) || (c =? 69))%N.
Definition sign (c : N) : bool := ((c =? 43) || (c =? 45))%N.

(** The state after one more character of the literal, [None] when the
    character cannot continue it. *)
Definition num_next (n : NumState) (c : N) : option NumState :=
  match n with
  | NMinus => if (c =? 48)%N then Some NZero else if digit c then Some NInt else None
  | NZero => if (c =? 46)%N then Some NPoint else if exp_mark c then Some NExp else None
  | NInt => if digit c then Some NInt
            else if (c =? 46)%N then Some NPoint
            else if exp_mark c then Some NExp else None
  | NPoint => if digit c then Some NFrac else None
  | NFrac => if digit c then Some NFrac else if exp_mark c then Some NExp else None
  | NExp => if digit c then Some NExpDigits else if sign c then Some NExpSign else None
  | NExpSign | NExpDigits => if digit c then Some NExpDigits else None
  end.

Definition hex_value (c : N) : option N :=
  if digit c then Some (c - 48)%N
  else if ((97 <=? c) && (c <=? 102))%N then Some (c - 87)%N
  else if ((65 <=? c) && (c <=? 70))%N then Some (c - 55)%N
  else None.

(** UTF-8 bytes of a code point, last byte first.  A surrogate that
    stands alone is written in three bytes like any other unit. *)
Definition utf8_rev (cp : N) : list ascii :=
  map ascii_of_N
    (if cp <? 128 then [cp]
     else if cp <? 2048 then [128 + cp mod 64; 192 + cp / 64]
     else if cp <? 65536 then [128 + cp mod 64; 128 + (cp / 64) mod 64; 224 + cp / 4096]
     else [128 + cp mod 64; 128 + (cp / 64) mod 64; 128 + (cp / 4096) mod 64;
           240 + cp / 262144])%N.

Definition is_high (u : N) : bool := ((55296 <=? u) && (u <=? 56319))%N.
Definition is_low (u : N) : bool := ((56320 <=? u) && (u <=? 57343))%N.

(** Write out a high surrogate that found no partner. *)
Definition flush (high : option N) (out : list ascii) : list ascii :=
  match high with
  | Some h => (utf8_rev h ++ out)%list
  | None => out
  end.

(** Add the code unit of a [\uXXXX] escape to the text read so far. *)
Definition add_unit (out : list ascii) (high : option N) (u : N)
  : list ascii * option N :=
  match high with
  | Some h =>
      if is_low u
      then ((utf8_rev (65536 + (h - 55296) * 1024 + (u - 56320))%N ++ out)%list, None)
      else if is_high u then ((utf8_rev h ++ out)%list, Some u)
      else ((utf8_rev u ++ utf8_rev h ++ out)%list, None)
  | None => if is_high u then (out, Some u) else ((utf8_rev u ++ out)%list, None)
  end.

Inductive Scan : Type :=
| Between
| InString (out : list ascii) (high : option N)
| InEscape (out : list ascii) (high : option N)
| InHex (out : list ascii) (high : option N) (digits : list N)
| InNumber (out : list ascii) (n : NumState)
| InWord (rest : list ascii) (v : JSValue).

Definition text_of (out : list ascii) : string := string_of_list_ascii (rev out).

(** A character met outside any token. *)
Definition scan_between (a : ascii) : option (Scan * list Token) :=
  let c := code a in
  if ((c =? 32) || (c =? 9) || (c =? 10) || (c =? 13))%N then Some (Between, [])
  else if (c =? 123)%N then Some (Between, [TLBrace])
  else if (c =? 125)%N then Some (Between, [TRBrace])
  else if (c =? 91)%N then Some (Between, [TLBracket])
  else if (c =? 93)%N then Some (Between, [TRBracket])
  else if (c =? 58)%N then Some (Between, [TColon])
  else if (c =? 44)%N then Some (Between, [TComma])
  else if (c =? 34)%N then Some (InString [] None, [])
  else if (c =? 45)%N then Some (InNumber [a] NMinus, [])
  else if (c =? 48)%N then Some (InNumber [a] NZero, [])
  else if digit c then Some (InNumber [a] NInt, [])
  else if (c =? 116)%N then Some (InWord (list_ascii_of_string "rue") (JBool true), [])
  else if (c =? 102)%N then Some (InWord (list_ascii_of_string "alse") (JBool false), [])
  else if (c =? 110)%N then Some (InWord (list_ascii_of_string "ull") JNull, [])
  else None.

Definition scan_escape (out : list ascii) (a : ascii) : option (list ascii) :=
  let c := code a in
  if ((c =? 34) || (c =? 92) || (c =? 47))%N then Some (a :: out)
  else if (c =? 98)%N then Some (ascii_of_N 8 :: out)
  else if (c =? 102)%N then Some (ascii_of_N 12 :: out)
  else if (c =? 110)%N then Some (ascii_of_N 10 :: out)
  else if (c =? 114)%N then Some (ascii_of_N 13 :: out)
  else if (c =? 116)%N then Some (ascii_of_N 9 :: out)
  else None.

(** One character of input: the next state and the tokens it completes. *)
Definition scan_char (st : Scan) (a : ascii) : option (Scan * list Token) :=
  let c := code a in
  match st with
  | Between => scan_between a
  | InString out high =>
      if (c =? 34)%N then Some (Between, [TString (text_of (flush high out))])
      else if (c =? 92)%N then Some (InEscape out high, [])
      else if (c <? 32)%N then None
      else Some (InString (a :: flush high out) None, [])
  | InEscape out high =>
      if (c =? 117)%N then Some (InHex out high [], [])
      else match scan_escape (flush high out) a with
           | Some out' => Some (InString out' None, [])
           | None => None
           end
  | InHex out high digits =>
      match hex_value c with
      | None => None
      | Some d =>
          match digits with
          | [d1; d2; d3] =>
              let '(out', high') := add_unit out high (((d1 * 16 + d2) * 16 + d3) * 16 + d)%N in
              Some (InString out' high', [])
          | _ => Some (InHex out high (digits ++ [d])%list, [])
          end
      end
  | InNumber out n =>
      match num_next n c with
      | Some n' => Some (InNumber (a :: out) n', [])
      | None =>
          if num_final n then
            match scan_between a with
            | Some (st', toks) => Some (st', TNumber (text_of out) :: toks)
            | None => None
            end
          else None
      end
  | InWord rest v =>
      match rest with
      | [] => None
      | [r] => if Ascii.eqb a r then Some (Between, [TWord v]) else None
      | r :: rest' => if Ascii.eqb a r then Some (InWord rest' v, []) else None
      end
  end.

Fixpoint scan (st : Scan) (s : string) : option (list Token) :=
  match s with
  | EmptyString =>
      match st with
      | Between => Some []
      | InNumber out n => if num_final n then Some [TNumber (text_of out)] else None
      | _ => None
      end
  | String a rest =>
      match scan_char st a with
      | Some (st', toks) => option_map (app toks) (scan st' rest)
      | None => None
      end
  end.

(** A container that is being read: its parts so far, latest first. *)
Inductive Frame : Type :=
| FArray (items : list JSValue)
| FObject (fields : list (string * JSValue)) (key : option string).

Inductive Expect : Type :=
| EValue (may_close : bool)      (* a value; just after [[] also []] *)
| EKey (may_close : bool)        (* a member name; just after [{] also [}] *)
| EColon
| ESep                           (* a comma or the closing bracket *)
| EEnd (v : JSValue).            (* the text is complete *)

Definition deliver (v : JSValue) (stack : list Frame) : option (list Frame * Expect) :=
  match stack with
  | [] => Some ([], EEnd v)
  | FArray items :: st => Some (FArray (v :: items) :: st, ESep)
  | FObject fields (Some k) :: st => Some (FObject ((k, v) :: fields) None :: st, ESep)
  | FObject _ None :: _ => None
  end.

Definition parse_token (st : list Frame * Expect) (t : Token) : option (list Frame * Expect) :=
  let '(stack, ex) := st in
  match ex, t with
  | EValue _, TString s => deliver (JString s) stack
  | EValue _, TNumber l => deliver (JNumber l) stack
  | EValue _, TWord v => deliver v stack
  | EValue _, TLBracket => Some (FArray [] :: stack, EValue true)
  | EValue _, TLBrace => Some (FObject [] None :: stack, EKey true)
  | EValue true, TRBracket =>
      match stack with
      | FArray [] :: st' => deliver (JArray []) st'
      | _ => None
      end
  | EKey _, TString k =>
      match stack with
      | FObject fields None :: st' => Some (FObject fields (Some k) :: st', EColon)
      | _ => None
      end
  | EKey true, TRBrace =>
      match stack with
      | FObject [] None :: st' => deliver (JObject []) st'
      | _ => None
      end
  | EColon, TColon => Some (stack, EValue false)
  | ESep, TComma =>
      match stack with
      | FArray _ :: _ => Some (stack, EValue false)
      | FObject _ None :: _ => Some (stack, EKey false)
      | _ => None
      end
  | ESep, TRBracket =>
      match stack with
      | FArray items :: st' => deliver (JArray (rev items)) st'
      | _ => None
      end
  | ESep, TRBrace =>
      match stack with
      | FObject fields None :: st' => deliver (JObject (rev fields)) st'
      | _ => None
      end
  | _, _ => None
  end.

Fixpoint parse_tokens (st : list Frame * Expect) (toks : list Token)
  : option (list Frame * Expect) :=
  match toks with
  | [] => Some st
  | t :: rest =>
      match parse_token st t with
      | Some st' => parse_tokens st' rest
      | None => None
      end
  end.

(** [JSON.parse(text)]: the value, or a thrown [SyntaxError]. *)
Definition parse (text : string) : Completion JSValue :=
  match scan Between text with
  | None => Throw SyntaxError
  | Some toks =>
      match parse_tokens ([], EValue false) toks with
      | Some ([], EEnd v) => Normal v
      | _ => Throw SyntaxError
      end
  end.

End JSON.

(* ===================================================================== *)
(** ** types.ts *)
(* ===================================================================== *)

Module Types.
Import JS.

Inductive AppState : Type :=
| IDLE | UPLOADING | TRANSCRIBING | ANALYZING | COMPLETED | ERROR.

Definition AppState_eqb (a b : AppState) : bool :=
  match a, b with
  | IDLE, IDLE | UPLOADING, UPLOADING | TRANSCRIBING, TRANSCRIBING
  | ANALYZING, ANALYZING | COMPLETED, COMPLETED | ERROR, ERROR => true
  | _, _ => false
  end.

Definition is_string (v : JSValue) : bool :=
  match v with
  | JString _ => true
  | _ => false
  end.

Definition field (v : JSValue) (key : string) : JSValue :=
  match v with
  | JObject fields =>
      match own fields key with
      | Some x => x
      | None => JUndefined
      end
  | _ => JUndefined
  end.

(** [interface ActionItem { task: string; assignee: string }] as a test
    on a run-time value. *)
Definition ActionItem (v : JSValue) : bool :=
  match v with
  | JObject _ => is_string (field v "task") && is_string (field v "assignee")
  | _ => false
  end.

Definition Sentiment (v : JSValue) : bool :=
  match v with
  | JString s => String.eqb s "Positive" || String.eqb s "Neutral" || String.eqb s "Negative"
  | _ => false
  end.

(** [interface AnalysisResult] as a test on a run-time value. *)
Definition AnalysisResult (v : JSValue) : bool :=
  match v with
  | JObject _ =>
      is_string (field v "transcription")
      && is_string (field v "executiveSummary")
      && match field v "actionItems" with
         | JArray items => forallb ActionItem items
         | _ => false
         end
      && Sentiment (field v "sentiment")
      && is_string (field v "sentimentReasoning")
  | _ => false
  end.

End Types.

(* ===================================================================== *)
(** ** services/geminiService: [analyzeAudio] *)
(* ===================================================================== *)

Module GeminiService.
Import JS.

(** The part of the request that depends on the arguments: the
    [inlineData] of [generateContent].  [data] is missing when the caller
    passes [undefined]. *)
Record Request : Type := { mimeType : string; data : option string }.

(** The [responseSchema] of the request: [Type.STRING], [Type.ARRAY] and
    [Type.OBJECT] with its [properties] and [required] names. *)
Inductive Schema : Type :=
| STRING
| ARRAY (items : Schema)
| OBJECT (properties : list (string * Schema)) (required : list string).

Definition responseSchema : Schema :=
  OBJECT
    [("transcription", STRING);
     ("executiveSummary", STRING);
     ("actionItems",
      ARRAY (OBJECT [("task", STRING); ("assignee", STRING)] ["task"; "assignee"]));
     ("sentiment", STRING);
     ("sentimentReasoning", STRING)]
    ["transcription"; "executiveSummary"; "actionItems"; "sentiment"; "sentimentReasoning"].

(** How the awaited [ai.models.generateContent] settles: with a response,
    whose [text] may be missing, or with a rejection (also when building
    the client throws). *)
Inductive Settled : Type :=
| Response (text : option string)
| Failed (message : option string).

(** [analyzeAudio] from the point where the call has settled:
<<
  const text = response.text;
  if (!text) throw new Error("No response from AI");
  return JSON.parse(text) as AnalysisResult;
>> *)
Definition analyzeAudio (r : Settled) : Completion JSValue :=
  match r with
  | Failed m => Throw (Rejection m)
  | Response None => Throw (Error "No response from AI")
  | Response (Some text) =>
      if String.eqb text "" then Throw (Error "No response from AI")
      else JSON.parse text
  end.

End GeminiService.

(* ===================================================================== *)
(** ** App.tsx *)
(* ===================================================================== *)

Module App.
Import JS Types GeminiService.

(** The selected [File]: what the component reads of it. *)
Record File : Type := { name : string; size : Z; type : string }.

(** The four [useState] cells of [App].  The setters that one handler
    calls before it returns or awaits take effect together: a handler is
    one step of the component. *)
Record Hooks : Type := {
  state : AppState;
  error : option string;
  result : JSValue;
  fileName : option string
}.

Definition setState (v : AppState) (h : Hooks) : Hooks :=
  {| state := v; error := error h; result := result h; fileName := fileName h |}.
Definition setError (v : option string) (h : Hooks) : Hooks :=
  {| state := state h; error := v; result := result h; fileName := fileName h |}.
Definition setResult (v : JSValue) (h : Hooks) : Hooks :=
  {| state := state h; error := error h; result := v; fileName := fileName h |}.
Definition setFileName (v : option string) (h : Hooks) : Hooks :=
  {| state := state h; error := error h; result := result h; fileName := v |}.

(** Work in flight: a [FileReader] reading a file, or a call of
    [analyzeAudio] that awaits the model. *)
Inductive Task : Type :=
| Reading (file : File)
| Calling (req : Request).

Inductive Asset : Type := PythonScript | RequirementsTxt | ReadmeMd.

Inductive Body : Type :=
| Text (content : string)
| Static (a : Asset).

(** A file handed to the browser for download: the [download] attribute
    of the anchor, and the [Blob] behind it. *)
Record Download : Type := { download : string; blob_type : string; body : Body }.

(** The component and what surrounds it. *)
Record System : Type := {
  hooks : Hooks;
  pending : list Task;           (* reads and calls not yet settled *)
  calls : list Request;          (* every call of [analyzeAudio] so far *)
  uncaught : list JSError;       (* errors no handler caught *)
  downloads : list Download
}.

Definition with_hooks (h : Hooks) (s : System) : System :=
  {| hooks := h; pending := pending s; calls := calls s;
     uncaught := uncaught s; downloads := downloads s |}.
Definition with_pending (p : list Task) (s : System) : System :=
  {| hooks := hooks s; pending := p; calls := calls s;
     uncaught := uncaught s; downloads := downloads s |}.
Definition call (r : Request) (s : System) : System :=
  {| hooks := hooks s; pending := pending s; calls := (calls s ++ [r])%list;
     uncaught := uncaught s; downloads := downloads s |}.
Definition escape (e : JSError) (s : System) : System :=
  {| hooks := hooks s; pending := pending s; calls := calls s;
     uncaught := (uncaught s ++ [e])%list; downloads := downloads s |}.
Definition save (d : Download) (s : System) : System :=
  {| hooks := hooks s; pending := pending s; calls := calls s;
     uncaught := uncaught s; downloads := (downloads s ++ [d])%list |}.

Definition initial : System :=
  {| hooks := {| state := IDLE; error := None; result := JNull; fileName := None |};
     pending := []; calls := []; uncaught := []; downloads := [] |}.

(** *** handleFileUpload *)

(** What the platform throws inside the [try] block, if it throws: only
    [err.message] is read of it. *)
Record Thrown : Type := { message : option string }.

(** [handleFileUpload], up to the end of the [try] statement.  [file] is
    [event.target.files?.[0]]; [setup] is the exception raised while the
    reader is created and started, if any.  When none is raised the read
    is in flight. *)
Definition handleFileUpload (s : System) (file : option File) (setup : option Thrown)
  : System :=
  match file with
  | None => s
  | Some file =>
      if (size file >? 20 * 1024 * 1024)%Z then
        with_hooks
          (setState ERROR
             (setError (Some "File is too large. Please select an audio file under 20MB.")
                (hooks s))) s
      else
        let h := setError None (setState UPLOADING (setFileName (Some (name file)) (hooks s))) in
        match setup with
        | None => with_pending (pending s ++ [Reading file])%list (with_hooks h s)
        | Some err =>
            with_hooks
              (setState ERROR
                 (setError
                    (Some (or_else (message err)
                             "An unexpected error occurred during processing."))
                    h)) s
        end
  end.

(** [reader.onload] up to its [await]: [dataURL] is [e.target.result]. *)
Definition onload (s : System) (file : File) (dataURL : string) : System :=
  let base64Data := nth_error (split comma dataURL) 1 in
  let mimeType := or_else (Some (type file)) "audio/mpeg" in
  let req := {| mimeType := mimeType; data := base64Data |} in
  with_pending (pending s ++ [Calling req])%list
    (call req (with_hooks (setState ANALYZING (hooks s)) s)).

(** [reader.onload] after its [await].  Nothing encloses the callback:
    what [analyzeAudio] throws leaves as an unhandled rejection. *)
Definition onload_resume (s : System) (r : Settled) : System :=
  match analyzeAudio r with
  | Normal analysis => with_hooks (setState COMPLETED (setResult analysis (hooks s))) s
  | Throw e => escape e s
  end.

(** [reader.onerror]: the [throw] happens in an event callback, after
    [handleFileUpload] has returned. *)
Definition onerror (s : System) : System :=
  escape (Error "Failed to read file") s.

(** *** downloadMarkdown *)

Definition item_line (item : JSValue) : Completion (option string) :=
  task <- get item "task" ;;
  assignee <- get item "assignee" ;;
  Normal (match ToString task, ToString assignee with
          | Some t, Some a => Some ("- [ ] **" ++ t ++ "** (Assignee: " ++ a ++ ")")
          | _, _ => None
          end).

(** [items.map(item => ...)], one text per item. *)
Fixpoint item_lines (items : list JSValue) : Completion (list (option string)) :=
  match items with
  | [] => Normal []
  | item :: rest =>
      l <- item_line item ;;
      ls <- item_lines rest ;;
      Normal (l :: ls)
  end.

Fixpoint all_some {A : Type} (l : list (option A)) : option (list A) :=
  match l with
  | [] => Some []
  | Some x :: r => option_map (cons x) (all_some r)
  | None :: _ => None
  end.

(** [v.map(f)] exists on arrays only. *)
Definition as_array (v : JSValue) : Completion (list JSValue) :=
  match v with
  | JArray items => Normal items
  | _ => Throw TypeError
  end.

(** The template literal of [downloadMarkdown], before [trim]. *)
Definition template (fileName summary sentiment reasoning items transcription : string)
  : string :=
  LF ++ "# Audio Analysis: " ++ fileName ++ LF
  ++ LF
  ++ "## Executive Summary" ++ LF
  ++ summary ++ LF
  ++ LF
  ++ "## Sentiment Analysis" ++ LF
  ++ "**Tone:** " ++ sentiment ++ LF
  ++ "**Reasoning:** " ++ reasoning ++ LF
  ++ LF
  ++ "## Action Items" ++ LF
  ++ items ++ LF
  ++ LF
  ++ "## Full Transcription" ++ LF
  ++ transcription ++ LF
  ++ "    ".

(** [content]: a [TypeError] when [actionItems] is no array or an item
    is null; [None] when a number would have to be printed. *)
Definition content (fileName : option string) (result : JSValue)
  : Completion (option string) :=
  summary <- get result "executiveSummary" ;;
  sentiment <- get result "sentiment" ;;
  reasoning <- get result "sentimentReasoning" ;;
  actionItems <- get result "actionItems" ;;
  items <- as_array actionItems ;;
  lines <- item_lines items ;;
  transcription <- get result "transcription" ;;
  Normal
    (match ToString summary, ToString sentiment, ToString reasoning,
           all_some lines, ToString transcription with
     | Some su, Some se, Some re, Some ls, Some tr =>
         Some (trim (template (match fileName with Some n => n | None => "null" end)
                       su se re (join LF ls) tr))
     | _, _, _, _, _ => None
     end).

(** [`${fileName?.split('.')[0] || 'analysis'}_report.md`] *)
Definition download_name (fileName : option string) : string :=
  or_else (match fileName with
           | Some n => nth_error (split dot n) 0
           | None => None
           end) "analysis"
  ++ "_report.md".

(** [downloadMarkdown].  [None]: the report would print a number. *)
Definition downloadMarkdown (s : System) : option System :=
  let h := hooks s in
  if negb (truthy (result h)) then Some s
  else
    match content (fileName h) (result h) with
    | Throw e => Some (escape e s)
    | Normal None => None
    | Normal (Some text) =>
        Some (save {| download := download_name (fileName h);
                      blob_type := "text/markdown";
                      body := Text text |} s)
    end.

(** [downloadSource(content, filename)] as the three buttons call it. *)
Definition downloadSource (s : System) (a : Asset) : System :=
  save {| download := match a with
                      | PythonScript => "transcribe_summary.py"
                      | RequirementsTxt => "requirements.txt"
                      | ReadmeMd => "README.md"
                      end;
          blob_type := "text/plain";
          body := Static a |} s.

(** *** What is rendered *)

Record ItemCard : Type := { card_task : JSValue; card_assignee : JSValue }.

Inductive Badge : Type := Green | Red | Slate.

(** The blocks of [<main>].  What is shown inside them is kept as the
    value handed to React.  [Bare] is a text written straight into
    [<main>], outside any block of the component. *)
Inductive Panel : Type :=
| Hero
| Loading (heading : string) (shown_file : option string)
| ErrorCard (shown_error : option string)
| Bare (text : string)
| Dashboard (summary : JSValue) (cards : list ItemCard) (no_items : bool)
            (transcript : JSValue) (badge : Badge) (sentiment reasoning : JSValue)
            (processed_file : option string).

Record View : Type := { export_button : bool; main : list Panel }.

Definition when {A : Type} (b : bool) (x : A) : list A := if b then [x] else [].

(** React refuses a plain object as a child, also inside an array. *)
Fixpoint valid_child (v : JSValue) : bool :=
  match v with
  | JObject _ => false
  | JArray items =>
      (fix all (l : list JSValue) : bool :=
         match l with
         | [] => true
         | x :: r => valid_child x && all r
         end) items
  | _ => true
  end.

Fixpoint item_cards (items : list JSValue) : Completion (list ItemCard) :=
  match items with
  | [] => Normal []
  | item :: rest =>
      task <- get item "task" ;;
      assignee <- get item "assignee" ;;
      cs <- item_cards rest ;;
      Normal ({| card_task := task; card_assignee := assignee |} :: cs)
  end.

Definition is_text (v : JSValue) (s : string) : bool :=
  match v with
  | JString t => String.eqb t s
  | _ => false
  end.

(** The results dashboard for a truthy [result]. *)
Definition dashboard (h : Hooks) : Completion Panel :=
  let r := result h in
  summary <- get r "executiveSummary" ;;
  actionItems <- get r "actionItems" ;;
  items <- as_array actionItems ;;
  cards <- item_cards items ;;
  transcript <- get r "transcription" ;;
  sentiment <- get r "sentiment" ;;
  reasoning <- get r "sentimentReasoning" ;;
  if valid_child summary
     && forallb (fun c => valid_child (card_task c) && valid_child (card_assignee c)) cards
     && valid_child transcript && valid_child sentiment && valid_child reasoning
  then Normal (Dashboard summary cards
                 (Nat.eqb (List.length items) 0)
                 transcript
                 (if is_text sentiment "Positive" then Green
                  else if is_text sentiment "Negative" then Red else Slate)
                 sentiment reasoning (fileName h))
  else Throw InvalidChild.

(** What React writes for the child [state === COMPLETED && result] when
    [result] is falsy: the text 0 for a number (0 and -0 alike), and
    nothing for null, undefined, false and the empty text. *)
Definition falsy_child (v : JSValue) : list Panel :=
  match v with
  | JNumber _ => [Bare "0"]
  | _ => []
  end.

(** The [return] of [App].  A throw during rendering takes the whole
    page down: there is no error boundary. *)
Definition view (h : Hooks) : Completion View :=
  let st := state h in
  results <- (if AppState_eqb st COMPLETED
              then if truthy (result h)
                   then d <- dashboard h ;; Normal [d]
                   else Normal (falsy_child (result h))
              else Normal []) ;;
  Normal {| export_button := AppState_eqb st COMPLETED;
            main :=
              (when (AppState_eqb st IDLE) Hero
              ++ when (AppState_eqb st UPLOADING || AppState_eqb st ANALYZING)
                   (Loading (if AppState_eqb st UPLOADING then "Reading Audio..."
                             else "AI Analysis in Progress...")
                            (fileName h))
              ++ when (AppState_eqb st ERROR) (ErrorCard (error h))
              ++ results)%list |}.

Definition shows (p : Panel -> bool) (h : Hooks) : bool :=
  match view h with
  | Normal v => existsb p (main v)
  | Throw _ => false
  end.

Definition is_hero (p : Panel) : bool := match p with Hero => true | _ => false end.
Definition is_error_card (p : Panel) : bool := match p with ErrorCard _ => true | _ => false end.
Definition is_dashboard (p : Panel) : bool := match p with Dashboard _ _ _ _ _ _ _ _ => true | _ => false end.

Definition has_export (h : Hooks) : bool :=
  match view h with
  | Normal v => export_button v
  | Throw _ => false
  end.

(** *** Events *)

Inductive Event : Type :=
| SelectFile (file : option File) (setup : option Thrown)  (* [onChange] of the file input *)
| ReaderLoad (i : nat) (dataURL : string)                  (* the i-th task, a read, succeeds *)
| ReaderError (i : nat)                                    (* the i-th task, a read, fails *)
| ModelSettles (i : nat) (r : Settled)                     (* the i-th task, a call, settles *)
| TryAgain                                                 (* button of the error card *)
| UploadNewFile                                            (* button of the dashboard *)
| ExportReport                                             (* button of the header *)
| DownloadAsset (a : Asset).                               (* buttons of the hero block *)

(** The i-th element and the others. *)
Fixpoint pick {A : Type} (i : nat) (l : list A) : option (A * list A) :=
  match l, i with
  | [], _ => None
  | x :: r, O => Some (x, r)
  | x :: r, S j =>
      match pick j r with
      | Some (y, r') => Some (y, x :: r')
      | None => None
      end
  end.

(** One turn of the event loop.  [None]: the event cannot happen in [s]
    (its control is not on the page, or the task is not in flight), or
    the outcome is not computed ([downloadMarkdown]). *)
Definition step (s : System) (e : Event) : option System :=
  match e with
  | SelectFile file setup =>
      if shows is_hero (hooks s) then Some (handleFileUpload s file setup) else None
  | ReaderLoad i dataURL =>
      match pick i (pending s) with
      | Some (Reading file, rest) => Some (onload (with_pending rest s) file dataURL)
      | _ => None
      end
  | ReaderError i =>
      match pick i (pending s) with
      | Some (Reading _, rest) => Some (onerror (with_pending rest s))
      | _ => None
      end
  | ModelSettles i r =>
      match pick i (pending s) with
      | Some (Calling _, rest) => Some (onload_resume (with_pending rest s) r)
      | _ => None
      end
  | TryAgain =>
      if shows is_error_card (hooks s)
      then Some (with_hooks (setState IDLE (hooks s)) s) else None
  | UploadNewFile =>
      if shows is_dashboard (hooks s)
      then Some (with_hooks (setState IDLE (hooks s)) s) else None
  | ExportReport =>
      if has_export (hooks s) then downloadMarkdown s else None
  | DownloadAsset a =>
      if shows is_hero (hooks s) then Some (downloadSource s a) else None
  end.

Fixpoint run (s : System) (es : list Event) : option System :=
  match es with
  | [] => Some s
  | e :: rest =>
      match step s e with
      | Some s' => run s' rest
      | None => None
      end
  end.

Inductive reachable : System -> Prop :=
| reach_initial : reachable initial
| reach_step s e s' : reachable s -> step s e = Some s' -> reachable s'.

End App.

(* ===================================================================== *)
(** ** The properties under study *)
(* ===================================================================== *)

Module Props.
Import JS Types GeminiService App.

(** A JSON text written with an apostrophe wherever JSON has a double
    quote. *)
Definition json (s : string) : string :=
  string_of_list_ascii
    (map (fun a => if (code a =? 39)%N then ascii_of_N 34 else a)
       (list_ascii_of_string s)).

(** The headings of the report. *)
Definition headings : list string :=
  ["## Executive Summary"; "## Sentiment Analysis"; "## Action Items";
   "## Full Transcription"].

(** [text] holds the strings of [hs] one after the other, in this order. *)
Fixpoint in_order (hs : list string) (text : string) : Prop :=
  match hs with
  | [] => True
  | h :: rest => exists before after, text = before ++ h ++ after /\ in_order rest after
  end.

(** In the words of the specification, the basename of a file name: the
    name with its extension removed, that is, without its last dot and
    what follows it.  A name without a dot has no extension. *)
Definition basename (n : string) : string :=
  match rev (split dot n) with
  | _ :: (_ :: _) as firsts => join "." (rev firsts)
  | _ => n
  end.

(** The number of dots in a name. *)
Definition dots (n : string) : nat := Nat.pred (List.length (split dot n)).

(** The part of a name before its first dot. *)
Definition stem (n : string) : string :=
  match split dot n with
  | seg :: _ => seg
  | [] => ""
  end.




(** What a block of the page shows of the stored values. *)
Definition shows_file_name (p : Panel) : bool :=
  match p with
  | Loading _ _ | Dashboard _ _ _ _ _ _ _ _ => true
  | _ => false
  end.
Definition shows_error (p : Panel) : bool :=
  match p with
  | ErrorCard _ => true
  | _ => false
  end.
Definition shows_result (p : Panel) : bool :=
  match p with
  | Dashboard _ _ _ _ _ _ _ _ | Bare _ => true
  | _ => false
  end.

(** An action item without the member [assignee]. *)
Definition lacks_assignee (item : JSValue) : bool :=
  match item with
  | JObject fields =>
      match own fields "assignee" with
      | None => true
      | Some _ => false
      end
  | _ => false
  end.

(** An [ActionItem] but for [assignee], which may be missing. *)
Definition ActionItem_or_unassigned (v : JSValue) : bool :=
  match v with
  | JObject _ =>
      is_string (field v "task")
      && (is_string (field v "assignee") || lacks_assignee v)
  | _ => false
  end.

(** An [AnalysisResult] but for the [assignee] of its items. *)
Definition AnalysisResult_or_unassigned (v : JSValue) : bool :=
  match v with
  | JObject _ =>
      is_string (field v "transcription")
      && is_string (field v "executiveSummary")
      && match field v "actionItems" with
         | JArray items => forallb ActionItem_or_unassigned items
         | _ => false
         end
      && Sentiment (field v "sentiment")
      && is_string (field v "sentimentReasoning")
  | _ => false
  end.

(** What a schema asks of a value: the type, the members named in
    [required], and the schema of each member that is there. *)
Fixpoint conforms (sch : Schema) (v : JSValue) : bool :=
  match sch, v with
  | STRING, JString _ => true
  | ARRAY items, JArray vs => forallb (conforms items) vs
  | OBJECT properties required, JObject fields =>
      forallb (fun k => match own fields k with Some _ => true | None => false end) required
      && forallb (fun p => match own fields (fst p) with
                           | Some x => conforms (snd p) x
                           | None => true
                           end) properties
  | _, _ => false
  end.

Definition card_of (item : JSValue) : ItemCard :=
  {| card_task := field item "task"; card_assignee := field item "assignee" |}.

(** Sample inputs. *)
Definition meeting_mp3 : File :=
  {| name := "meeting.mp3"; size := 1048576; type := "audio/mpeg" |}.

Definition too_large : File :=
  {| name := "board.wav"; size := 20971521; type := "audio/wav" |}.

Definition reply_ok : string :=
  json "{'transcription':'hello','executiveSummary':'s','actionItems':[],'sentiment':'Neutral','sentimentReasoning':'r'}".

Definition reply_unassigned : string :=
  json "{'transcription':'hello','executiveSummary':'s','actionItems':[{'task':'send notes'}],'sentiment':'Neutral','sentimentReasoning':'r'}".

Definition data_url : string := "data:audio/mpeg;base64,SUQzAwAAAAAA".

(** The component after a run of events, the initial one if the run is
    not possible. *)
Definition after (es : list Event) : System :=
  match run initial es with
  | Some s => s
  | None => initial
  end.

(** [c] does not occur in [s]. *)
Definition free_of (c : ascii) (s : string) : Prop := ~ In c (list_ascii_of_string s).

(** The assignees on the cards of the dashboard, as handed to React. *)
Definition assignees_shown (v : Completion View) : list JSValue :=
  match v with
  | Normal {| main := [Dashboard _ cards _ _ _ _ _ _] |} => map card_assignee cards
  | _ => []
  end.

(** A byte that is a character of its own and no white space. *)
Definition plain (a : N) : Prop := (a < 128)%N /\ ws1 a = false.

End Props.

(* ===================================================================== *)
(** ** Further properties: what they speak of *)
(* ===================================================================== *)

Module Coverage.
Import JS Types GeminiService App Props.

(** At most one piece of work is in flight, and the state tag tells
    which: a read in UPLOADING, for the file whose name is stored, or a
    call in ANALYZING. *)
Definition single_flight (s : System) : Prop :=
  pending s = []
  \/ (exists f, pending s = [Reading f] /\ state (hooks s) = UPLOADING
                /\ fileName (hooks s) = Some (name f))
  \/ (exists r, pending s = [Calling r] /\ state (hooks s) = ANALYZING).

(** The states in which a file is being worked on or its result shown. *)
Definition busy (st : AppState) : bool :=
  match st with
  | UPLOADING | ANALYZING | COMPLETED => true
  | _ => false
  end.

(** What the reachable states have in common. *)
Definition sound (s : System) : Prop :=
  single_flight s
  /\ state (hooks s) <> TRANSCRIBING
  /\ (forall m, error (hooks s) = Some m -> m <> "")
  /\ (busy (state (hooks s)) = true ->
      error (hooks s) = None /\ fileName (hooks s) <> None)
  /\ Forall (fun r => mimeType r <> "") (calls s).

(** The text of a string value. *)
Definition text_of (v : JSValue) : string :=
  match v with
  | JString t => t
  | _ => ""
  end.

(** The checklist line of an action item whose members are strings. *)
Definition line_of (item : JSValue) : string :=
  "- [ ] **" ++ text_of (field item "task")
  ++ "** (Assignee: " ++ text_of (field item "assignee") ++ ")".

Definition items_of (r : JSValue) : list JSValue :=
  match field r "actionItems" with
  | JArray items => items
  | _ => []
  end.

(** The report as it is downloaded for a result of the declared shape:
    the template from its title on, up to the transcription. *)
Definition report_of (fn : option string) (r : JSValue) : string :=
  "# Audio Analysis: " ++ match fn with Some n => n | None => "null" end ++ LF
  ++ LF
  ++ "## Executive Summary" ++ LF
  ++ text_of (field r "executiveSummary") ++ LF
  ++ LF
  ++ "## Sentiment Analysis" ++ LF
  ++ "**Tone:** " ++ text_of (field r "sentiment") ++ LF
  ++ "**Reasoning:** " ++ text_of (field r "sentimentReasoning") ++ LF
  ++ LF
  ++ "## Action Items" ++ LF
  ++ join LF (map line_of (items_of r)) ++ LF
  ++ LF
  ++ "## Full Transcription" ++ LF
  ++ text_of (field r "transcription").

(** The call that [onload] makes for a file and the data URL read from
    it. *)
Definition request_for (f : File) (dataURL : string) : Request :=
  {| mimeType := if String.eqb (type f) "" then "audio/mpeg" else type f;
     data := nth_error (split comma dataURL) 1 |}.

(** Sample runs. *)
Definition read_failed : System :=
  after [SelectFile (Some meeting_mp3) None; ReaderError 0].

Definition replied (text : string) : System :=
  after [SelectFile (Some meeting_mp3) None; ReaderLoad 0 data_url;
         ModelSettles 0 (Response (Some text))].

End Coverage.

Import JS Types GeminiService App Props.

(* ===================================================================== *)
(** ** Strings *)
(* ===================================================================== *)

Section Strings.

Lemma append_assoc (a b c : string) : (a ++ b) ++ c = a ++ (b ++ c).
Proof. induction a as [|x a IH]; simpl; [reflexivity | now rewrite IH]. Qed.

Lemma append_nil_r (a : string) : a ++ "" = a.
Proof. induction a as [|x a IH]; simpl; [reflexivity | now rewrite IH]. Qed.

Lemma codes_app (a b : string) : codes (a ++ b) = (codes a ++ codes b)%list.
Proof.
  unfold codes. induction a as [|x a IH]; simpl; [reflexivity | now rewrite IH].
Qed.

Lemma of_codes_app (l1 l2 : list N) : of_codes (l1 ++ l2) = of_codes l1 ++ of_codes l2.
Proof.
  unfold of_codes. induction l1 as [|x l1 IH]; simpl; [reflexivity | now rewrite IH].
Qed.

Lemma of_codes_codes (s : string) : of_codes (codes s) = s.
Proof.
  unfold of_codes, codes, code. induction s as [|x s IH]; simpl; [reflexivity|].
  now rewrite ascii_N_embedding, IH.
Qed.

End Strings.

(* ===================================================================== *)
(** ** [trim] keeps what lies between two visible characters *)
(* ===================================================================== *)

Section Trim.

Ltac off a :=
  repeat match goal with
    | |- context [(a =? ?n)%N] =>
        replace (a =? n)%N with false by (symmetry; apply N.eqb_neq; lia)
    | |- context [(?n <=? a)%N] =>
        replace (n <=? a)%N with false by (symmetry; apply N.leb_gt; lia)
    end;
  rewrite ?andb_false_r; cbn [andb orb]; rewrite ?andb_false_r.

Lemma ws_len_within (pre : list N) (a : N) (post : list N) :
  plain a -> ws_len (pre ++ a :: post) <= List.length pre.
Proof.
  intros [Ha Hw]. destruct pre as [|x [|y [|z pre]]]; cbn [app ws_len List.length].
  - rewrite Hw. destruct post as [|b [|c post]]; auto; unfold ws2, ws3; off a; auto.
  - destruct (ws1 x); [lia|]. unfold ws2. off a.
    destruct post as [|c post]; auto. unfold ws3. off a. auto.
  - destruct (ws1 x); [lia|]. destruct (ws2 x y); [lia|].
    unfold ws3. off a. auto.
  - destruct (ws1 x); [lia|]. destruct (ws2 x y); [lia|].
    destruct (ws3 x y z); lia.
Qed.

Lemma ws_len_rev_within (pre : list N) (a : N) (post : list N) :
  plain a -> ws_len_rev (pre ++ a :: post) <= List.length pre.
Proof.
  intros [Ha Hw]. destruct pre as [|x [|y [|z pre]]]; cbn [app ws_len_rev List.length].
  - rewrite Hw. destruct post as [|b [|c post]]; auto; unfold ws2, ws3; off a; auto.
  - destruct (ws1 x); [lia|]. unfold ws2. off a.
    destruct post as [|c post]; auto. unfold ws3. off a. auto.
  - destruct (ws1 x); [lia|]. destruct (ws2 y x); [lia|].
    unfold ws3. off a. auto.
  - destruct (ws1 x); [lia|]. destruct (ws2 y x); [lia|].
    destruct (ws3 z y x); lia.
Qed.

Variable wl : list N -> nat.
Hypothesis wl_within :
  forall pre a post, plain a -> wl (pre ++ a :: post) <= List.length pre.

Lemma strip_keeps (fuel : nat) :
  forall pre a post, plain a ->
    exists pre', strip wl fuel (pre ++ a :: post) = (pre' ++ a :: post)%list.
Proof.
  induction fuel as [|fuel IH]; intros pre a post Ha; cbn [strip].
  - now exists pre.
  - destruct (wl (pre ++ a :: post)) as [|k] eqn:E.
    + now exists pre.
    + pose proof (wl_within pre a post Ha) as Hk. rewrite E in Hk.
      rewrite skipn_app.
      replace (S k - List.length pre) with 0 by lia. cbn [skipn].
      apply IH, Ha.
Qed.

End Trim.

Lemma rev_middle {A : Type} (x m p : list A) (a b : A) :
  rev (x ++ a :: (m ++ b :: p)) = (rev p ++ b :: rev (x ++ a :: m))%list.
Proof.
  replace (x ++ a :: (m ++ b :: p))%list with ((x ++ a :: m) ++ b :: p)%list.
  - rewrite rev_app_distr. cbn [rev]. rewrite <- app_assoc. reflexivity.
  - rewrite <- app_assoc. reflexivity.
Qed.

Lemma codes_cons (a : ascii) (s : string) : codes (String a s) = code a :: codes s.
Proof. reflexivity. Qed.

Lemma of_codes_cons (a : ascii) (l : list N) :
  of_codes (code a :: l) = String a (of_codes l).
Proof. unfold of_codes, code. cbn [map string_of_list_ascii]. now rewrite ascii_N_embedding. Qed.

Lemma trim_keeps (pre mid post : string) (a b : ascii) :
  plain (code a) -> plain (code b) ->
  exists pre' post',
    trim (pre ++ String a (mid ++ String b post)) = pre' ++ String a (mid ++ String b post').
Proof.
  intros Ha Hb. unfold trim.
  set (n1 := String.length _). clearbody n1.
  replace (codes (pre ++ String a (mid ++ String b post)))
    with (codes pre ++ code a :: (codes mid ++ code b :: codes post))%list
    by (now rewrite codes_app, codes_cons, codes_app, codes_cons).
  destruct (strip_keeps ws_len ws_len_within n1 (codes pre) (code a)
              (codes mid ++ code b :: codes post)%list Ha) as [p' ->].
  set (n2 := List.length _). clearbody n2.
  replace (rev (p' ++ code a :: (codes mid ++ code b :: codes post)))
    with (rev (codes post) ++ code b :: rev (p' ++ code a :: codes mid))%list.
  2:{ symmetry. apply rev_middle. }
  destruct (strip_keeps ws_len_rev ws_len_rev_within n2 (rev (codes post)) (code b)
              (rev (p' ++ code a :: codes mid)) Hb) as [q' ->].
  exists (of_codes p'), (of_codes (rev q')).
  rewrite rev_app_distr. cbn [rev]. rewrite rev_involutive.
  rewrite <- !app_assoc. cbn [app].
  rewrite of_codes_app, of_codes_cons, of_codes_app, of_codes_codes, of_codes_cons.
  reflexivity.
Qed.

Lemma ws_len_le (l : list N) : ws_len l <= List.length l.
Proof.
  destruct l as [|a [|b [|c l]]]; cbn [ws_len List.length];
    repeat match goal with |- context [if ?b then _ else _] => destruct b end; lia.
Qed.

Lemma ws_len_rev_le (l : list N) : ws_len_rev l <= List.length l.
Proof.
  destruct l as [|a [|b [|c l]]]; cbn [ws_len_rev List.length];
    repeat match goal with |- context [if ?b then _ else _] => destruct b end; lia.
Qed.

(** With the length of the text as fuel, [strip] goes on until no white
    space is left in front. *)
Lemma strip_complete (wl : list N -> nat) (fuel : nat) :
  (forall l, wl l <= List.length l) ->
  forall l, List.length l <= fuel -> wl (strip wl fuel l) = 0.
Proof.
  intros Hwl. induction fuel as [|fuel IH]; intros l Hl; cbn [strip].
  - pose proof (Hwl l). lia.
  - destruct (wl l) as [|k] eqn:E; [exact E|].
    apply IH. rewrite length_skipn. pose proof (Hwl l). lia.
Qed.

Lemma trim_no_leading_space (s : string) :
  ws_len (strip ws_len (String.length s) (codes s)) = 0.
Proof.
  apply strip_complete; [exact ws_len_le|].
  unfold codes. rewrite length_map. clear.
  induction s as [|a s IH]; cbn; lia.
Qed.

(* ===================================================================== *)
(** ** [JSON.parse] on sample texts *)
(* ===================================================================== *)

Example parse_reply_ok :
  JSON.parse reply_ok
  = Normal (JObject [("transcription", JString "hello"); ("executiveSummary", JString "s");
                     ("actionItems", JArray []); ("sentiment", JString "Neutral");
                     ("sentimentReasoning", JString "r")]).
Proof. reflexivity. Qed.

Example parse_nested :
  JSON.parse (json " [1, -0.5e+10, true, {'a' : [ ], 'b' : {}}, null, '\u0041\n'] ")
  = Normal (JArray [JNumber "1"; JNumber "-0.5e+10"; JBool true;
                    JObject [("a", JArray []); ("b", JObject [])]; JNull;
                    JString ("A" ++ LF)]).
Proof. reflexivity. Qed.

Example parse_rejects :
  map JSON.parse ["" ; " "; "01"; "1."; "[1,]"; json "{'a':1,}"; json "{'a' 1}";
                  "nul"; "[" ; "]"; "1 2"; json "'abc"; "undefined"]
  = repeat (Throw SyntaxError) 13.
Proof. reflexivity. Qed.

Example parse_falsy_values :
  map (fun t => option_map truthy
                  (match JSON.parse t with Normal v => Some v | Throw _ => None end))
      ["null"; "false"; "0"; "-0.0"; "1e-400"; json "''"; "[]"; "{}"; "5e-324"]
  = [Some false; Some false; Some false; Some false; Some false; Some false;
     Some true; Some true; Some true].
Proof. reflexivity. Qed.

(* ===================================================================== *)
(** ** The Markdown report *)
(* ===================================================================== *)

Section Report.

Lemma get_object (fields : list (string * JSValue)) (key : string) :
  get (JObject fields) key = Normal (field (JObject fields) key).
Proof. unfold get, field. now destruct (own fields key). Qed.

Lemma is_string_inv (v : JSValue) : is_string v = true -> exists s, v = JString s.
Proof. destruct v; try discriminate. intros _. now eexists. Qed.

Lemma all_some_map_Some {A : Type} (l : list A) : all_some (map Some l) = Some l.
Proof. induction l as [|x l IH]; cbn; [reflexivity | now rewrite IH]. Qed.

Lemma item_lines_typed (items : list JSValue) :
  forallb ActionItem items = true ->
  exists ls, item_lines items = Normal (map Some ls).
Proof.
  induction items as [|item items IH]; cbn [forallb item_lines]; intros H.
  - now exists [].
  - apply andb_true_iff in H as [Hi Hr]. destruct (IH Hr) as [ls ->].
    destruct item; try discriminate. cbn [ActionItem] in Hi.
    apply andb_true_iff in Hi as [Ht Ha].
    apply is_string_inv in Ht as [t Ht], Ha as [a Ha].
    unfold item_line. rewrite !get_object, Ht, Ha. cbn.
    now exists (("- [ ] **" ++ t ++ "** (Assignee: " ++ a ++ ")") :: ls).
Qed.

Lemma plain_hash : plain (code "#"%char).
Proof. split; reflexivity. Qed.

Lemma plain_n : plain (code "n"%char).
Proof. split; reflexivity. Qed.

Lemma template_headings (fn su se re items tr : string) :
  in_order headings (trim (template fn su se re items tr)).
Proof.
  pose (mid := " Audio Analysis: " ++ fn ++ LF ++ LF
               ++ "## Executive Summary" ++ LF ++ su ++ LF ++ LF
               ++ "## Sentiment Analysis" ++ LF ++ "**Tone:** " ++ se ++ LF
               ++ "**Reasoning:** " ++ re ++ LF ++ LF
               ++ "## Action Items" ++ LF ++ items ++ LF ++ LF
               ++ "## Full Transcriptio").
  assert (E : template fn su se re items tr
              = LF ++ String "#" (mid ++ String "n" (LF ++ tr ++ LF ++ "    "))).
  { unfold template, mid, LF. rewrite !append_assoc. reflexivity. }
  rewrite E.
  destruct (trim_keeps LF mid (LF ++ tr ++ LF ++ "    ") "#" "n" plain_hash plain_n)
    as (p & q & ->).
  exists (p ++ "# Audio Analysis: " ++ fn ++ LF ++ LF),
         (LF ++ su ++ LF ++ LF
          ++ "## Sentiment Analysis" ++ LF ++ "**Tone:** " ++ se ++ LF
          ++ "**Reasoning:** " ++ re ++ LF ++ LF
          ++ "## Action Items" ++ LF ++ items ++ LF ++ LF
          ++ "## Full Transcription" ++ q).
  split.
  { unfold mid, LF. rewrite !append_assoc. reflexivity. }
  exists (LF ++ su ++ LF ++ LF),
         (LF ++ "**Tone:** " ++ se ++ LF ++ "**Reasoning:** " ++ re ++ LF ++ LF
          ++ "## Action Items" ++ LF ++ items ++ LF ++ LF
          ++ "## Full Transcription" ++ q).
  split.
  { unfold LF. rewrite !append_assoc. reflexivity. }
  exists (LF ++ "**Tone:** " ++ se ++ LF ++ "**Reasoning:** " ++ re ++ LF ++ LF),
         (LF ++ items ++ LF ++ LF ++ "## Full Transcription" ++ q).
  split.
  { unfold LF. rewrite !append_assoc. reflexivity. }
  exists (LF ++ items ++ LF ++ LF), q.
  split.
  { unfold LF. rewrite !append_assoc. reflexivity. }
  exact I.
Qed.

(** Whatever the result, a report that is produced has the headings. *)
Lemma any_report_has_headings (fn : option string) (r : JSValue) (text : string) :
  content fn r = Normal (Some text) -> in_order headings text.
Proof.
  unfold content, bind.
  repeat match goal with
         | |- context [match ?c with Normal _ => _ | Throw _ => _ end] =>
             destruct c; try discriminate
         end.
  repeat match goal with
         | |- context [match ?o with Some _ => _ | None => _ end] =>
             destruct o; try discriminate
         end.
  all: intros [= <-]; apply template_headings.
Qed.

(** C9: for every AnalysisResult the export produces a document whose
    text holds the four headings Executive Summary, Sentiment Analysis,
    Action Items and Full Transcription, in this order. *)
Theorem report_headings_in_order (s : System) :
  AnalysisResult (result (hooks s)) = true ->
  exists text,
    downloadMarkdown s
    = Some (save {| download := download_name (fileName (hooks s));
                    blob_type := "text/markdown";
                    body := Text text |} s)
    /\ in_order headings text.
Proof.
  intros H. unfold downloadMarkdown.
  destruct (result (hooks s)) as [| | | | |?|fields] eqn:E; try discriminate.
  cbn [AnalysisResult] in H.
  repeat (apply andb_true_iff in H as [H ?]).
  destruct (field (JObject fields) "actionItems") as [| | | | |items|] eqn:Ei;
    try discriminate.
  repeat match goal with
         | H : is_string _ = true |- _ => apply is_string_inv in H as [? H]
         end.
  match goal with
  | H : Sentiment _ = true |- _ =>
      destruct (field (JObject fields) "sentiment") as [| | | |se| |] eqn:Es;
      try discriminate H
  end.
  match goal with
  | H : forallb ActionItem items = true |- _ =>
      destruct (item_lines_typed items H) as [ls Hls]
  end.
  cbn [truthy negb]. unfold content.
  rewrite !get_object. cbn [bind].
  repeat match goal with
         | H : field _ _ = _ |- _ => rewrite H
         end.
  cbn [as_array bind]. rewrite Hls. cbn [bind ToString].
  rewrite all_some_map_Some.
  eexists. split; [reflexivity | apply template_headings].
Qed.

Lemma report_headings_in_order_witness :
  exists text,
    downloadMarkdown
      (after [SelectFile (Some meeting_mp3) None; ReaderLoad 0 data_url;
              ModelSettles 0 (Response (Some reply_ok))])
    = Some (save {| download := "meeting_report.md";
                    blob_type := "text/markdown";
                    body := Text text |}
              (after [SelectFile (Some meeting_mp3) None; ReaderLoad 0 data_url;
                      ModelSettles 0 (Response (Some reply_ok))]))
    /\ in_order headings text.
Proof.
  apply (report_headings_in_order
           (after [SelectFile (Some meeting_mp3) None; ReaderLoad 0 data_url;
                   ModelSettles 0 (Response (Some reply_ok))])).
  vm_compute. reflexivity.
Defined.

(** C10: the export called while no result is there (the stored result
    is null, or falsy in any other way) does nothing: no download, and
    the component is as before. *)
Theorem export_without_result_is_noop (s : System) :
  truthy (result (hooks s)) = false ->
  downloadMarkdown s = Some s
  /\ forall s', step s ExportReport = Some s' -> s' = s.
Proof.
  intros H.
  assert (E : downloadMarkdown s = Some s) by (unfold downloadMarkdown; now rewrite H).
  split; [exact E|]. intros s' Hs. cbn [step] in Hs.
  destruct (has_export (hooks s)); [|discriminate]. congruence.
Qed.

Lemma export_without_result_is_noop_witness :
  downloadMarkdown
    (after [SelectFile (Some meeting_mp3) None; ReaderLoad 0 data_url;
            ModelSettles 0 (Response (Some "null"))])
  = Some (after [SelectFile (Some meeting_mp3) None; ReaderLoad 0 data_url;
                 ModelSettles 0 (Response (Some "null"))])
  /\ forall s',
      step (after [SelectFile (Some meeting_mp3) None; ReaderLoad 0 data_url;
                   ModelSettles 0 (Response (Some "null"))]) ExportReport = Some s' ->
      s' = after [SelectFile (Some meeting_mp3) None; ReaderLoad 0 data_url;
                  ModelSettles 0 (Response (Some "null"))].
Proof.
  apply (export_without_result_is_noop
           (after [SelectFile (Some meeting_mp3) None; ReaderLoad 0 data_url;
                   ModelSettles 0 (Response (Some "null"))])).
  vm_compute. reflexivity.
Defined.

End Report.

(* ===================================================================== *)
(** ** The name of the exported file *)
(* ===================================================================== *)

Section DownloadName.

Lemma split_nonempty (c : ascii) (s : string) : split c s <> [].
Proof.
  destruct s as [|a s]; cbn [split]; [discriminate|].
  destruct (split c s); [discriminate|]. destruct (Ascii.eqb a c); discriminate.
Qed.

Lemma join_split (s : string) : join "." (split dot s) = s.
Proof.
  induction s as [|a s IH]; [reflexivity|]. cbn [split].
  destruct (split dot s) as [|seg segs] eqn:E; [now destruct (split_nonempty dot s)|].
  destruct (Ascii.eqb_spec a dot) as [->|_].
  - change (join "." ("" :: seg :: segs)) with ("." ++ join "." (seg :: segs)).
    now rewrite IH.
  - destruct segs as [|seg' segs].
    + cbn [join] in *. now rewrite IH.
    + change (join "." (String a seg :: seg' :: segs))
        with (String a (seg ++ "." ++ join "." (seg' :: segs))).
      change (join "." (seg :: seg' :: segs))
        with (seg ++ "." ++ join "." (seg' :: segs)) in IH.
      now rewrite IH.
Qed.

Lemma or_else_nonempty (s fallback : string) : s <> "" -> or_else (Some s) fallback = s.
Proof. destruct s; [congruence | reflexivity]. Qed.

Lemma download_name_stem (n : string) :
  download_name (Some n) = or_else (Some (stem n)) "analysis" ++ "_report.md".
Proof.
  unfold download_name, stem.
  destruct (split dot n) eqn:E; [now destruct (split_nonempty dot n)|reflexivity].
Qed.

Lemma basename_stem (n : string) : dots n <= 1 -> stem n <> "" -> basename n = stem n.
Proof.
  unfold dots, stem, basename. intros Hd Hs.
  pose proof (join_split n) as J.
  destruct (split dot n) as [|a [|b [|c l]]]; cbn in *; try lia; congruence.
Qed.

(** C8, as the code has it: for a file name with at most one dot and
    something before it, the download name is the name without its
    extension followed by _report.md; for a name with nothing before its
    first dot, and when no name is stored, it is analysis_report.md;
    meeting.mp3 gives meeting_report.md. *)
Theorem download_name_of_file (n : string) :
  (dots n <= 1 -> stem n <> "" -> download_name (Some n) = basename n ++ "_report.md")
  /\ (stem n = "" -> download_name (Some n) = "analysis_report.md")
  /\ download_name None = "analysis_report.md"
  /\ download_name (Some "meeting.mp3") = "meeting_report.md".
Proof.
  repeat split; try reflexivity.
  - intros Hd Hs. rewrite download_name_stem, basename_stem by assumption.
    now rewrite or_else_nonempty.
  - intros Hs. now rewrite download_name_stem, Hs.
Qed.

Lemma download_name_of_file_witness :
  download_name (Some "weekly sync.wav") = basename "weekly sync.wav" ++ "_report.md"
  /\ download_name (Some ".mp3") = "analysis_report.md".
Proof.
  split.
  - apply (proj1 (download_name_of_file "weekly sync.wav")).
    + vm_compute. lia.
    + vm_compute. discriminate.
  - apply (proj1 (proj2 (download_name_of_file ".mp3"))). reflexivity.
Defined.

(** C8 as worded fails: the file name .mp3 has nothing before its dot,
    and the export is named analysis_report.md, not after the name. *)
Lemma download_name_not_always_basename :
  ~ (forall n, download_name (Some n) = basename n ++ "_report.md").
Proof.
  intros H. specialize (H ".mp3"). vm_compute in H. discriminate H.
Qed.

(** Beside the claims: the cut is at the first dot, so of a name with
    two dots less than the name without its extension remains. *)
Example download_name_two_dots :
  download_name (Some "q3.planning.mp3") = "q3_report.md"
  /\ basename "q3.planning.mp3" = "q3.planning".
Proof. split; reflexivity. Qed.

End DownloadName.

(* ===================================================================== *)
(** ** Ingestion *)
(* ===================================================================== *)

Section Ingestion.

(** C5: a file of 20 MiB + 1 byte or more is refused in the handler
    itself: the state is ERROR with the size message, no call to the
    model is made and no read is started, so that nothing of the file is
    left that a later call could send. *)
Theorem oversized_file_is_rejected (s : System) (f : File) (setup : option Thrown) :
  (size f >= 20 * 1024 * 1024 + 1)%Z ->
  let s' := handleFileUpload s (Some f) setup in
  s' = with_hooks
         (setState ERROR
            (setError (Some "File is too large. Please select an audio file under 20MB.")
               (hooks s))) s
  /\ state (hooks s') = ERROR
  /\ error (hooks s') = Some "File is too large. Please select an audio file under 20MB."
  /\ calls s' = calls s
  /\ pending s' = pending s.
Proof.
  intros H s'. subst s'. unfold handleFileUpload.
  replace (size f >? 20 * 1024 * 1024)%Z with true
    by (symmetry; apply Z.gtb_lt; lia).
  repeat split.
Qed.

Lemma oversized_file_is_rejected_witness :
  let s' := handleFileUpload initial (Some too_large) None in
  s' = with_hooks
         (setState ERROR
            (setError (Some "File is too large. Please select an audio file under 20MB.")
               (hooks initial))) initial
  /\ state (hooks s') = ERROR
  /\ error (hooks s') = Some "File is too large. Please select an audio file under 20MB."
  /\ calls s' = calls initial
  /\ pending s' = pending initial.
Proof.
  apply (oversized_file_is_rejected initial too_large None). vm_compute. discriminate.
Defined.

Lemma split_free (c : ascii) (s : string) : free_of c s -> split c s = [s].
Proof.
  unfold free_of. induction s as [|a s IH]; cbn [split list_ascii_of_string]; intros H.
  - reflexivity.
  - rewrite IH by (intros I; apply H; now right).
    destruct (Ascii.eqb_spec a c) as [->|_]; [|reflexivity].
    exfalso. apply H. now left.
Qed.

Lemma split_at_first (c : ascii) (a b : string) :
  free_of c a -> split c (a ++ String c b) = a :: split c b.
Proof.
  unfold free_of. induction a as [|x a IH]; cbn [append split list_ascii_of_string]; intros H.
  - destruct (split c b) eqn:E; [now destruct (split_nonempty c b)|].
    now rewrite Ascii.eqb_refl.
  - rewrite IH by (intros I; apply H; now right).
    destruct (Ascii.eqb_spec x c) as [->|_]; [|reflexivity].
    exfalso. apply H. now left.
Qed.

Lemma pick_last {A : Type} (l : list A) (x : A) :
  pick (List.length l) (l ++ [x]) = Some (x, l).
Proof. induction l as [|y l IH]; cbn; [reflexivity | now rewrite IH]. Qed.

Lemma free_of_app (c : ascii) (a b : string) :
  free_of c a -> free_of c b -> free_of c (a ++ b).
Proof.
  unfold free_of. induction a as [|x a IH]; cbn; intros Ha Hb; [exact Hb|].
  intros [E|I]; [apply Ha; now left|]. apply IH; auto.
Qed.

(** The base64 part of a data URL, as [onload] cuts it out. *)
Lemma base64_of_data_url (media b64 : string) :
  free_of comma media -> free_of comma b64 ->
  nth_error (split comma ("data:" ++ media ++ ";base64," ++ b64)) 1 = Some b64.
Proof.
  intros Hm Hb.
  replace ("data:" ++ media ++ ";base64," ++ b64)
    with (("data:" ++ media ++ ";base64") ++ String comma b64)
    by (rewrite !append_assoc; reflexivity).
  rewrite split_at_first, (split_free comma b64 Hb); [reflexivity|].
  apply (free_of_app comma "data:"); [vm_compute; intuition discriminate|].
  apply free_of_app; [exact Hm | vm_compute; intuition discriminate].
Qed.

(** C6: a file under the limit, selected while the reader can be
    started, puts the component in UPLOADING at once, with its name
    stored and no error; when the read completes with the data URL of
    the file, the state is ANALYZING and [analyzeAudio] is called with
    the base64 part of that URL and with the type of the file, or
    audio/mpeg when the type is empty. *)
Theorem small_file_is_ingested (s : System) (f : File) (media b64 : string) :
  (size f < 20 * 1024 * 1024)%Z ->
  free_of comma media -> free_of comma b64 ->
  let s1 := handleFileUpload s (Some f) None in
  let req := {| mimeType := if String.eqb (type f) "" then "audio/mpeg" else type f;
                data := Some b64 |} in
  state (hooks s1) = UPLOADING
  /\ fileName (hooks s1) = Some (name f)
  /\ error (hooks s1) = None
  /\ calls s1 = calls s
  /\ pending s1 = (pending s ++ [Reading f])%list
  /\ exists s2,
      step s1 (ReaderLoad (List.length (pending s))
                 ("data:" ++ media ++ ";base64," ++ b64)) = Some s2
      /\ state (hooks s2) = ANALYZING
      /\ error (hooks s2) = None
      /\ calls s2 = (calls s ++ [req])%list
      /\ pending s2 = (pending s ++ [Calling req])%list.
Proof.
  intros Hsize Hm Hb s1 req. subst s1. unfold handleFileUpload.
  replace (size f >? 20 * 1024 * 1024)%Z with false
    by (symmetry; rewrite Z.gtb_ltb; apply Z.ltb_ge; lia).
  repeat split.
  cbn [step pending with_pending with_hooks].
  rewrite pick_last. eexists. split; [reflexivity|].
  unfold onload. rewrite (base64_of_data_url media b64 Hm Hb).
  cbn. repeat split; unfold req; destruct (type f); reflexivity.
Qed.

Lemma small_file_is_ingested_witness :
  let s1 := handleFileUpload initial (Some meeting_mp3) None in
  let req := {| mimeType := if String.eqb (type meeting_mp3) "" then "audio/mpeg"
                            else type meeting_mp3;
                data := Some "SUQzAwAAAAAA" |} in
  state (hooks s1) = UPLOADING
  /\ fileName (hooks s1) = Some (name meeting_mp3)
  /\ error (hooks s1) = None
  /\ calls s1 = calls initial
  /\ pending s1 = (pending initial ++ [Reading meeting_mp3])%list
  /\ exists s2,
      step s1 (ReaderLoad (List.length (pending initial))
                 ("data:" ++ "audio/mpeg" ++ ";base64," ++ "SUQzAwAAAAAA")) = Some s2
      /\ state (hooks s2) = ANALYZING
      /\ error (hooks s2) = None
      /\ calls s2 = (calls initial ++ [req])%list
      /\ pending s2 = (pending initial ++ [Calling req])%list.
Proof.
  apply (small_file_is_ingested initial meeting_mp3 "audio/mpeg" "SUQzAwAAAAAA").
  - vm_compute. reflexivity.
  - vm_compute. intuition discriminate.
  - vm_compute. intuition discriminate.
Defined.

(** Beside the claims: a file without a type is sent as audio/mpeg, and
    a file of exactly 20 MiB is accepted. *)
Example empty_type_falls_back :
  calls (after [SelectFile (Some {| name := "memo.m4a"; size := 2048; type := "" |}) None;
                ReaderLoad 0 "data:application/octet-stream;base64,AAAA"])
  = [{| mimeType := "audio/mpeg"; data := Some "AAAA" |}].
Proof. reflexivity. Qed.

Example limit_is_inclusive :
  state (hooks (after [SelectFile
                         (Some {| name := "long.wav"; size := 20971520; type := "audio/wav" |})
                         None]))
  = UPLOADING.
Proof. reflexivity. Qed.

End Ingestion.

(* ===================================================================== *)
(** ** The state machine *)
(* ===================================================================== *)

Section StateMachine.

Lemma view_in_error (h : Hooks) :
  state h = ERROR ->
  view h = Normal {| export_button := false; main := [ErrorCard (error h)] |}.
Proof. intros H. unfold view. now rewrite H. Qed.

Lemma view_in_idle (h : Hooks) :
  state h = IDLE -> view h = Normal {| export_button := false; main := [Hero] |}.
Proof. intros H. unfold view. now rewrite H. Qed.

(** C4: Try Again in ERROR leads to IDLE, and the page of IDLE is the
    upload prompt alone: it shows no file name, no error message and no
    result. *)
Theorem try_again_resets_to_idle (s : System) :
  state (hooks s) = ERROR ->
  exists s' v,
    step s TryAgain = Some s'
    /\ state (hooks s') = IDLE
    /\ view (hooks s') = Normal v
    /\ main v = [Hero]
    /\ existsb shows_file_name (main v) = false
    /\ existsb shows_error (main v) = false
    /\ existsb shows_result (main v) = false.
Proof.
  intros H. cbn [step]. unfold shows. rewrite (view_in_error _ H). cbn.
  do 2 eexists. split; [reflexivity|].
  split; [reflexivity|]. split; [apply view_in_idle; reflexivity|].
  cbn. repeat split.
Qed.

Lemma try_again_resets_to_idle_witness :
  exists s' v,
    step (after [SelectFile (Some too_large) None]) TryAgain = Some s'
    /\ state (hooks s') = IDLE
    /\ view (hooks s') = Normal v
    /\ main v = [Hero]
    /\ existsb shows_file_name (main v) = false
    /\ existsb shows_error (main v) = false
    /\ existsb shows_result (main v) = false.
Proof.
  apply (try_again_resets_to_idle (after [SelectFile (Some too_large) None])).
  vm_compute. reflexivity.
Defined.

(** Beside the claims: the cells themselves are not cleared by Try
    Again; the message stays stored until the next upload. *)
Example try_again_keeps_cells :
  hooks (after [SelectFile (Some too_large) None; TryAgain])
  = {| state := IDLE;
       error := Some "File is too large. Please select an audio file under 20MB.";
       result := JNull;
       fileName := None |}.
Proof. reflexivity. Qed.

Lemma analyzeAudio_normal (r : Settled) (v : JSValue) :
  analyzeAudio r = Normal v ->
  exists text, r = Response (Some text) /\ text <> "" /\ JSON.parse text = Normal v.
Proof.
  destruct r as [[text|]|m]; cbn [analyzeAudio]; try discriminate.
  destruct (String.eqb_spec text "") as [->|N]; [discriminate|].
  intros H. now exists text.
Qed.







Lemma dashboard_shows (h : Hooks) (d : Panel) :
  dashboard h = Normal d -> is_dashboard d = true /\ is_error_card d = false.
Proof.
  unfold dashboard, bind.
  repeat match goal with
         | |- context [match ?c with Normal _ => _ | Throw _ => _ end] =>
             destruct c; try discriminate
         end.
  destruct (_ && _); [|discriminate]. intros [= <-]. now split.
Qed.

Lemma falsy_child_plain (v : JSValue) :
  existsb is_error_card (falsy_child v) = false
  /\ existsb is_dashboard (falsy_child v) = false
  /\ existsb is_hero (falsy_child v) = false.
Proof. destruct v; now repeat split. Qed.

(** The error card is on the page exactly in ERROR; the dashboard only
    in COMPLETED, and only for a truthy result. *)
Lemma shown_by_state (h : Hooks) :
  (shows is_error_card h = true <-> state h = ERROR)
  /\ (shows is_dashboard h = true -> state h = COMPLETED /\ truthy (result h) = true).
Proof.
  unfold shows, view. destruct (state h) eqn:E; cbn [AppState_eqb bind];
    try (cbn; repeat split; intros; congruence).
  destruct (truthy (result h)).
  - destruct (dashboard h) as [d|e] eqn:D; cbn [bind];
      [|cbn; repeat split; intros; congruence].
    destruct (dashboard_shows h d D) as [Hd He].
    cbn. rewrite He. cbn. repeat split; intros; congruence.
  - cbn [bind]. destruct (falsy_child_plain (result h)) as (He & Hd & _).
    cbn -[falsy_child]. rewrite He, Hd. repeat split; intros; congruence.
Qed.





End StateMachine.

(* ===================================================================== *)
(** ** Replies of the model *)
(* ===================================================================== *)

Section Replies.

Lemma lacks_assignee_field (item : JSValue) :
  lacks_assignee item = true -> field item "assignee" = JUndefined.
Proof.
  destruct item; try discriminate. cbn [lacks_assignee field].
  now destruct (own fields "assignee").
Qed.

Lemma item_cards_loose (items : list JSValue) :
  forallb ActionItem_or_unassigned items = true ->
  item_cards items = Normal (map card_of items)
  /\ forallb (fun c => valid_child (card_task c) && valid_child (card_assignee c))
       (map card_of items) = true.
Proof.
  induction items as [|item items IH]; cbn [forallb item_cards map]; intros H.
  - now split.
  - apply andb_true_iff in H as [Hi Hr]. destruct (IH Hr) as [-> Hv].
    destruct item; try discriminate. cbn [ActionItem_or_unassigned] in Hi.
    apply andb_true_iff in Hi as [Ht Ha]. apply is_string_inv in Ht as [t Ht].
    rewrite !get_object. cbn [bind]. split; [reflexivity|].
    cbn [card_of card_task card_assignee]. rewrite Hv, Ht, andb_true_r. cbn [valid_child andb].
    apply orb_true_iff in Ha as [Ha|Ha].
    + apply is_string_inv in Ha as [a ->]. reflexivity.
    + now rewrite (lacks_assignee_field _ Ha).
Qed.

(** C7, as the code has it: whatever a reply parses to becomes the
    result, unchecked, and the state becomes COMPLETED; nothing is
    thrown.  When the reply has the declared shape but for action items
    without [assignee], the page renders and the card of such an item
    carries [undefined] for its assignee: neither the text Unassigned
    nor a parse failure. *)
Theorem unassigned_item_reaches_dashboard (s : System) (text : string) (v : JSValue) :
  JSON.parse text = Normal v ->
  let s' := onload_resume s (Response (Some text)) in
  hooks s' = setState COMPLETED (setResult v (hooks s))
  /\ uncaught s' = uncaught s
  /\ (AnalysisResult_or_unassigned v = true ->
      exists items,
        field v "actionItems" = JArray items
        /\ view (hooks s')
           = Normal
               {| export_button := true;
                  main := [Dashboard (field v "executiveSummary") (map card_of items)
                             (Nat.eqb (List.length items) 0)
                             (field v "transcription")
                             (if is_text (field v "sentiment") "Positive" then Green
                              else if is_text (field v "sentiment") "Negative" then Red
                                   else Slate)
                             (field v "sentiment") (field v "sentimentReasoning")
                             (fileName (hooks s))] |}
        /\ forall item, In item items -> lacks_assignee item = true ->
             card_assignee (card_of item) = JUndefined).
Proof.
  intros P s'. subst s'.
  assert (A : analyzeAudio (Response (Some text)) = Normal v).
  { cbn [analyzeAudio]. destruct (String.eqb_spec text "") as [->|_]; [discriminate P|exact P]. }
  unfold onload_resume. rewrite A. clear A P.
  split; [reflexivity|]. split; [reflexivity|]. intros H.
  destruct v as [| | | | |?|fields]; try discriminate.
  cbn [AnalysisResult_or_unassigned] in H.
  repeat (apply andb_true_iff in H as [H ?]).
  destruct (field (JObject fields) "actionItems") as [| | | | |items|] eqn:Ei;
    try discriminate.
  exists items. split; [reflexivity|].
  split; [|intros item _ L; apply (lacks_assignee_field item L)].
  repeat match goal with
         | H : is_string _ = true |- _ => apply is_string_inv in H as [? H]
         end.
  match goal with
  | H : Sentiment _ = true |- _ =>
      destruct (field (JObject fields) "sentiment") as [| | | |se| |] eqn:Es;
      try discriminate H
  end.
  match goal with
  | H : forallb ActionItem_or_unassigned items = true |- _ =>
      destruct (item_cards_loose items H) as [Hc Hv]
  end.
  unfold view.
  cbn [state result fileName hooks with_hooks setState setResult AppState_eqb truthy].
  unfold dashboard. cbn [result fileName setState setResult].
  rewrite !get_object. cbn [bind].
  rewrite Ei. cbn [as_array bind]. rewrite Hc. cbn [bind].
  repeat match goal with
         | H : field _ _ = JString _ |- _ => rewrite H
         end.
  rewrite Hv. reflexivity.
Qed.

Lemma unassigned_item_reaches_dashboard_witness :
  let s := after [SelectFile (Some meeting_mp3) None; ReaderLoad 0 data_url] in
  let v := JObject [("transcription", JString "hello"); ("executiveSummary", JString "s");
                    ("actionItems", JArray [JObject [("task", JString "send notes")]]);
                    ("sentiment", JString "Neutral"); ("sentimentReasoning", JString "r")] in
  let s' := onload_resume s (Response (Some reply_unassigned)) in
  hooks s' = setState COMPLETED (setResult v (hooks s))
  /\ uncaught s' = uncaught s
  /\ exists items,
      field v "actionItems" = JArray items
      /\ view (hooks s')
         = Normal
             {| export_button := true;
                main := [Dashboard (field v "executiveSummary") (map card_of items)
                           (Nat.eqb (List.length items) 0)
                           (field v "transcription")
                           (if is_text (field v "sentiment") "Positive" then Green
                            else if is_text (field v "sentiment") "Negative" then Red
                                 else Slate)
                           (field v "sentiment") (field v "sentimentReasoning")
                           (fileName (hooks s))] |}
      /\ forall item, In item items -> lacks_assignee item = true ->
           card_assignee (card_of item) = JUndefined.
Proof.
  intros s v s'.
  destruct (unassigned_item_reaches_dashboard s reply_unassigned v) as (H1 & H2 & H3).
  - vm_compute. reflexivity.
  - split; [exact H1|]. split; [exact H2|]. apply H3. vm_compute. reflexivity.
Defined.

(** C7 as worded fails: for a reply whose one action item has no
    [assignee], a member that the declared schema requires, the call
    does not fail and the card shows [undefined], not Unassigned. *)
Lemma unassigned_item_counterexample :
  let s := after [SelectFile (Some meeting_mp3) None; ReaderLoad 0 data_url;
                  ModelSettles 0 (Response (Some reply_unassigned))] in
  (exists v item,
      JSON.parse reply_unassigned = Normal v
      /\ field v "actionItems" = JArray [item]
      /\ lacks_assignee item = true
      /\ conforms responseSchema v = false)
  /\ state (hooks s) = COMPLETED
  /\ assignees_shown (view (hooks s)) = [JUndefined]
  /\ ~ ((exists e, analyzeAudio (Response (Some reply_unassigned)) = Throw e)
        \/ assignees_shown (view (hooks s)) = [JString "Unassigned"]).
Proof.
  split; [|split; [|split]].
  - do 2 eexists. vm_compute. repeat split.
  - reflexivity.
  - reflexivity.
  - intros [[e E]|E]; vm_compute in E; discriminate E.
Qed.

(** Beside the claims: the sample reply of the specification reaches
    the dashboard as it was parsed, with no cards and the placeholder
    for an empty list. *)
Example reply_ok_reaches_dashboard :
  let s := after [SelectFile (Some meeting_mp3) None; ReaderLoad 0 data_url;
                  ModelSettles 0 (Response (Some reply_ok))] in
  JSON.parse reply_ok = Normal (result (hooks s))
  /\ view (hooks s)
     = Normal {| export_button := true;
                 main := [Dashboard (JString "s") [] true (JString "hello") Slate
                            (JString "Neutral") (JString "r") (Some "meeting.mp3")] |}.
Proof. split; reflexivity. Qed.

(** C1 on the code: when the reply has no text, [analyzeAudio] throws
    "No response from AI", and the throw leaves the callback of the
    reader uncaught: the state stays ANALYZING, no error message is
    stored, and nothing is left in flight that could change it. *)
Theorem empty_response_leaves_analyzing :
  analyzeAudio (Response None) = Throw (Error "No response from AI")
  /\ analyzeAudio (Response (Some "")) = Throw (Error "No response from AI")
  /\ (forall s, onload_resume s (Response None) = escape (Error "No response from AI") s)
  /\ (forall s, onload_resume s (Response (Some "")) = escape (Error "No response from AI") s)
  /\ run initial [SelectFile (Some meeting_mp3) None; ReaderLoad 0 data_url;
                  ModelSettles 0 (Response None)]
     = Some {| hooks := {| state := ANALYZING; error := None; result := JNull;
                           fileName := Some "meeting.mp3" |};
               pending := [];
               calls := [{| mimeType := "audio/mpeg"; data := Some "SUQzAwAAAAAA" |}];
               uncaught := [Error "No response from AI"];
               downloads := [] |}.
Proof. repeat split. Qed.

(** C2 on the code: a failed read throws "Failed to read file" from the
    [onerror] callback, outside the [try]: the state stays UPLOADING and
    no error message is stored.  A reply that is no JSON, and a rejected
    call, leave the state at ANALYZING in the same way.  Only what is
    thrown while the reader is set up reaches the [catch]. *)
Theorem read_failure_leaves_uploading :
  (forall s, onerror s = escape (Error "Failed to read file") s)
  /\ (forall s, hooks (onerror s) = hooks s)
  /\ run initial [SelectFile (Some meeting_mp3) None; ReaderError 0]
  = Some {| hooks := {| state := UPLOADING; error := None; result := JNull;
                        fileName := Some "meeting.mp3" |};
            pending := []; calls := [];
            uncaught := [Error "Failed to read file"];
            downloads := [] |}
  /\ run initial [SelectFile (Some meeting_mp3) None; ReaderLoad 0 data_url;
                  ModelSettles 0 (Response (Some "<html>Bad Gateway</html>"))]
     = Some {| hooks := {| state := ANALYZING; error := None; result := JNull;
                           fileName := Some "meeting.mp3" |};
               pending := [];
               calls := [{| mimeType := "audio/mpeg"; data := Some "SUQzAwAAAAAA" |}];
               uncaught := [SyntaxError];
               downloads := [] |}
  /\ run initial [SelectFile (Some meeting_mp3) None; ReaderLoad 0 data_url;
                  ModelSettles 0 (Failed (Some "429 Too Many Requests"))]
     = Some {| hooks := {| state := ANALYZING; error := None; result := JNull;
                           fileName := Some "meeting.mp3" |};
               pending := [];
               calls := [{| mimeType := "audio/mpeg"; data := Some "SUQzAwAAAAAA" |}];
               uncaught := [Rejection (Some "429 Too Many Requests")];
               downloads := [] |}
  /\ run initial [SelectFile (Some meeting_mp3) (Some {| message := Some "NotReadableError" |})]
     = Some {| hooks := {| state := ERROR; error := Some "NotReadableError"; result := JNull;
                           fileName := Some "meeting.mp3" |};
               pending := []; calls := []; uncaught := []; downloads := [] |}.
Proof. repeat split. Qed.

End Replies.

(* ===================================================================== *)
(** ** Further properties of the state machine *)
(* ===================================================================== *)

Import Coverage.

Section Controls.

Lemma dashboard_form (h : Hooks) (d : Panel) :
  dashboard h = Normal d ->
  is_dashboard d = true /\ is_hero d = false /\ is_error_card d = false.
Proof.
  unfold dashboard, bind.
  repeat match goal with
         | |- context [match ?c with Normal _ => _ | Throw _ => _ end] =>
             destruct c; try discriminate
         end.
  destruct (_ && _); [|discriminate]. intros [= <-]. now repeat split.
Qed.

Lemma view_loading (h : Hooks) :
  state h = UPLOADING \/ state h = ANALYZING ->
  exists t, view h = Normal {| export_button := false; main := [Loading t (fileName h)] |}.
Proof. intros [E|E]; unfold view; rewrite E; eexists; reflexivity. Qed.

Lemma shows_hero_state (h : Hooks) : shows is_hero h = true -> state h = IDLE.
Proof.
  unfold shows, view. destruct (state h) eqn:E; cbn [AppState_eqb bind];
    try (cbn; congruence).
  destruct (truthy (result h)).
  - destruct (dashboard h) as [d|e] eqn:D; cbn; [|congruence].
    destruct (dashboard_form h d D) as (_ & -> & _). cbn. congruence.
  - cbn -[falsy_child]. destruct (falsy_child_plain (result h)) as (_ & _ & ->).
    congruence.
Qed.

Lemma shows_error_card_state (h : Hooks) : shows is_error_card h = true -> state h = ERROR.
Proof. apply (proj1 (shown_by_state h)). Qed.

Lemma shows_dashboard_state (h : Hooks) :
  shows is_dashboard h = true -> state h = COMPLETED /\ truthy (result h) = true.
Proof. apply (proj2 (shown_by_state h)). Qed.

Lemma has_export_state (h : Hooks) : has_export h = true -> state h = COMPLETED.
Proof.
  unfold has_export, view. destruct (state h) eqn:E; cbn [AppState_eqb bind];
    cbn; congruence.
Qed.

Lemma downloadMarkdown_frame (s s' : System) :
  downloadMarkdown s = Some s' ->
  hooks s' = hooks s /\ pending s' = pending s /\ calls s' = calls s.
Proof.
  unfold downloadMarkdown. destruct (negb _); [now intros [= <-]|].
  destruct (content _ _) as [[text|]|e]; intros [= <-]; now repeat split.
Qed.

Lemma pick_one {A : Type} (i : nat) (x y : A) (rest : list A) :
  pick i [x] = Some (y, rest) -> i = 0 /\ y = x /\ rest = [].
Proof.
  destruct i as [|i]; cbn.
  - now intros [= <- <-].
  - destruct i; discriminate.
Qed.

End Controls.

Section Reachable.

Lemma or_else_never_empty (o : option string) (fallback : string) :
  fallback <> "" -> or_else o fallback <> "".
Proof. destruct o as [[|c r]|]; cbn; intros H; try exact H. discriminate. Qed.

Lemma sound_frame (s s' : System) :
  hooks s' = hooks s -> pending s' = pending s -> calls s' = calls s ->
  sound s -> sound s'.
Proof. unfold sound, single_flight. intros -> -> ->. exact (fun H => H). Qed.

Lemma single_flight_idle (s : System) :
  single_flight s -> busy (state (hooks s)) = false -> pending s = [].
Proof.
  intros [E|[(f & _ & E & _)|(r & _ & E)]] B; [exact E| |]; rewrite E in B; discriminate.
Qed.

Ltac sound_goals :=
  unfold sound; split; [|split; [|split; [|split]]];
  cbn [hooks pending calls with_hooks with_pending call escape onload onerror
       state error fileName setState setError setResult setFileName busy app];
  try assumption; try discriminate; try (now left); try (intros _; now split).

Lemma handleFileUpload_sound (s : System) (file : option File) (setup : option Thrown) :
  state (hooks s) = IDLE -> sound s -> sound (handleFileUpload s file setup).
Proof.
  intros I S. pose proof S as (F & T & Em & B & C).
  assert (P : pending s = []) by (apply single_flight_idle; [exact F | now rewrite I]).
  unfold handleFileUpload. destruct file as [f|]; [|exact S].
  destruct (size f >? 20 * 1024 * 1024)%Z.
  - sound_goals. intros m [= <-]. discriminate.
  - destruct setup as [err|].
    + sound_goals. intros m [= <-]. apply or_else_never_empty. discriminate.
    + sound_goals. right. left. exists f. cbn. rewrite P. now repeat split.
Qed.

Lemma step_sound (s : System) (e : Event) (s' : System) :
  sound s -> step s e = Some s' -> sound s'.
Proof.
  intros S H. pose proof S as (F & T & Em & B & C).
  destruct e; cbn [step] in H.
  - destruct (shows is_hero (hooks s)) eqn:V; [|discriminate]. injection H as <-.
    apply handleFileUpload_sound; [now apply shows_hero_state | exact S].
  - destruct (pick i (pending s)) as [[[f|q] rest]|] eqn:P; try discriminate.
    injection H as <-.
    destruct F as [E|[(f' & E & St & Fn)|(r & E & St)]]; rewrite E in P.
    + destruct i; discriminate.
    + apply pick_one in P as (_ & [= ->] & ->).
      rewrite St in B. destruct (B eq_refl) as [Be Bf].
      sound_goals.
      * right. right. eexists. split; reflexivity.
      * apply Forall_app. split; [exact C|]. constructor; [|constructor].
        cbn. destruct (type f'); discriminate.
    + apply pick_one in P as (_ & P & _). discriminate.
  - destruct (pick i (pending s)) as [[[f|q] rest]|] eqn:P; try discriminate.
    injection H as <-.
    destruct F as [E|[(f' & E & St & Fn)|(r & E & St)]]; rewrite E in P.
    + destruct i; discriminate.
    + apply pick_one in P as (_ & _ & ->). sound_goals.
    + apply pick_one in P as (_ & P & _). discriminate.
  - destruct (pick i (pending s)) as [[[f|q] rest]|] eqn:P; try discriminate.
    injection H as <-.
    destruct F as [E|[(f' & E & St & Fn)|(q' & E & St)]]; rewrite E in P.
    + destruct i; discriminate.
    + apply pick_one in P as (_ & P & _). discriminate.
    + apply pick_one in P as (_ & _ & ->).
      rewrite St in B. destruct (B eq_refl) as [Be Bf].
      unfold onload_resume. destruct (analyzeAudio r) as [v|err]; sound_goals.
  - destruct (shows is_error_card (hooks s)) eqn:V; [|discriminate]. injection H as <-.
    apply shows_error_card_state in V.
    assert (P : pending s = []) by (apply single_flight_idle; [exact F | now rewrite V]).
    sound_goals.
  - destruct (shows is_dashboard (hooks s)) eqn:V; [|discriminate]. injection H as <-.
    apply shows_dashboard_state in V as [V _].
    destruct F as [P|[(f' & _ & St & _)|(q' & _ & St)]]; try congruence.
    sound_goals.
  - destruct (has_export (hooks s)); [|discriminate].
    destruct (downloadMarkdown_frame s s' H) as (H1 & H2 & H3).
    exact (sound_frame s s' H1 H2 H3 S).
  - destruct (shows is_hero (hooks s)); [|discriminate]. injection H as <-. exact S.
Qed.

Lemma initial_sound : sound initial.
Proof.
  repeat split; cbn; try discriminate; [now left | constructor].
Qed.

Lemma reachable_sound (s : System) : reachable s -> sound s.
Proof.
  induction 1 as [|s e s' _ IH H]; [exact initial_sound | exact (step_sound s e s' IH H)].
Qed.

Lemma reachable_run (es : list Event) (s s' : System) :
  reachable s -> run s es = Some s' -> reachable s'.
Proof.
  revert s. induction es as [|e es IH]; cbn [run]; intros s R H.
  - now injection H as <-.
  - destruct (step s e) as [s1|] eqn:E; [|discriminate].
    exact (IH s1 (reach_step s e s1 R E) H).
Qed.

Lemma reachable_read_failed : reachable read_failed.
Proof. apply (reachable_run [SelectFile (Some meeting_mp3) None; ReaderError 0] initial);
         [apply reach_initial | reflexivity]. Qed.

Lemma reachable_replied (text : string) (s : System) :
  run initial [SelectFile (Some meeting_mp3) None; ReaderLoad 0 data_url;
               ModelSettles 0 (Response (Some text))] = Some s ->
  reachable s.
Proof. apply reachable_run, reach_initial. Qed.

End Reachable.

Section Invariants.

(** X1: in every reachable state at most one read or call is in flight;
    a read only in UPLOADING, for the file whose name is stored, and a
    call only in ANALYZING. *)
Theorem one_task_in_flight (s : System) : reachable s -> single_flight s.
Proof. intros R. exact (proj1 (reachable_sound s R)). Qed.

Lemma one_task_in_flight_witness :
  single_flight (after [SelectFile (Some meeting_mp3) None; ReaderLoad 0 data_url]).
Proof.
  apply (one_task_in_flight
           (after [SelectFile (Some meeting_mp3) None; ReaderLoad 0 data_url])).
  apply (reachable_run [SelectFile (Some meeting_mp3) None; ReaderLoad 0 data_url] initial);
    [apply reach_initial | reflexivity].
Defined.

(** X2: the state TRANSCRIBING of the enumeration is never reached. *)
Theorem never_transcribing (s : System) :
  reachable s -> state (hooks s) <> TRANSCRIBING.
Proof. intros R. exact (proj1 (proj2 (reachable_sound s R))). Qed.

Lemma never_transcribing_witness : state (hooks read_failed) <> TRANSCRIBING.
Proof. apply (never_transcribing read_failed). exact reachable_read_failed. Defined.

(** X3: an error message that is stored is never the empty text: the
    size message, the message of what was thrown, or the fallback when
    that message is missing or empty. *)
Theorem stored_error_never_empty (s : System) (m : string) :
  reachable s -> error (hooks s) = Some m -> m <> "".
Proof. intros R. exact (proj1 (proj2 (proj2 (reachable_sound s R))) m). Qed.

Lemma stored_error_never_empty_witness :
  error (hooks (after [SelectFile (Some meeting_mp3) (Some {| message := Some "" |})]))
  = Some "An unexpected error occurred during processing."
  /\ "An unexpected error occurred during processing." <> "".
Proof.
  split; [reflexivity|].
  apply (stored_error_never_empty
           (after [SelectFile (Some meeting_mp3) (Some {| message := Some "" |})])).
  - apply (reachable_run
             [SelectFile (Some meeting_mp3) (Some {| message := Some "" |})] initial);
      [apply reach_initial | reflexivity].
  - reflexivity.
Defined.

(** X4: while a file is read or analysed, and while its result is shown,
    no error message is stored and a file name is. *)
Theorem busy_state_is_clean (s : System) :
  reachable s -> busy (state (hooks s)) = true ->
  error (hooks s) = None /\ fileName (hooks s) <> None.
Proof. intros R. exact (proj1 (proj2 (proj2 (proj2 (reachable_sound s R))))). Qed.

Lemma busy_state_is_clean_witness :
  error (hooks (after [SelectFile (Some too_large) None; TryAgain;
                       SelectFile (Some meeting_mp3) None])) = None
  /\ fileName (hooks (after [SelectFile (Some too_large) None; TryAgain;
                             SelectFile (Some meeting_mp3) None])) <> None.
Proof.
  apply (busy_state_is_clean
           (after [SelectFile (Some too_large) None; TryAgain;
                   SelectFile (Some meeting_mp3) None])).
  - apply (reachable_run [SelectFile (Some too_large) None; TryAgain;
                          SelectFile (Some meeting_mp3) None] initial);
      [apply reach_initial | reflexivity].
  - reflexivity.
Defined.

(** X5: no call of [analyzeAudio] is ever made with an empty MIME
    type. *)
Theorem calls_carry_mime_type (s : System) :
  reachable s -> Forall (fun r => mimeType r <> "") (calls s).
Proof. intros R. exact (proj2 (proj2 (proj2 (proj2 (reachable_sound s R))))). Qed.

Lemma calls_carry_mime_type_witness :
  Forall (fun r => mimeType r <> "")
    (calls (after [SelectFile (Some {| name := "memo.m4a"; size := 2048; type := "" |}) None;
                   ReaderLoad 0 "data:application/octet-stream;base64,AAAA"])).
Proof.
  apply (calls_carry_mime_type
           (after [SelectFile (Some {| name := "memo.m4a"; size := 2048; type := "" |}) None;
                   ReaderLoad 0 "data:application/octet-stream;base64,AAAA"])).
  apply (reachable_run
           [SelectFile (Some {| name := "memo.m4a"; size := 2048; type := "" |}) None;
            ReaderLoad 0 "data:application/octet-stream;base64,AAAA"] initial);
    [apply reach_initial | reflexivity].
Defined.

End Invariants.

Section DeadEnds.

Lemma pick_nil {A : Type} (i : nat) : pick i (@nil A) = None.
Proof. now destruct i. Qed.

(** X6: once the state is UPLOADING or ANALYZING and nothing is in
    flight (the read or the call has failed), no event can happen any
    more: the page shows the progress indicator for good. *)
Theorem loading_without_task_is_stuck (s : System) (e : Event) :
  pending s = [] ->
  state (hooks s) = UPLOADING \/ state (hooks s) = ANALYZING ->
  step s e = None.
Proof.
  intros P St. destruct (view_loading _ St) as [t V].
  destruct e; cbn [step]; unfold shows, has_export; rewrite ?V, ?P, ?pick_nil;
    reflexivity.
Qed.

Lemma loading_without_task_is_stuck_witness : step read_failed TryAgain = None.
Proof.
  apply (loading_without_task_is_stuck read_failed TryAgain).
  - reflexivity.
  - left. reflexivity.
Defined.

(** X7: when the reply parsed to a falsy value (null, false, 0, the
    empty text), the state is COMPLETED but the dashboard with its
    Upload New File button is not rendered; the export does nothing, so
    no event changes anything any more. *)
Theorem completed_without_result_is_stuck (s : System) (e : Event) (s' : System) :
  state (hooks s) = COMPLETED ->
  truthy (result (hooks s)) = false ->
  pending s = [] ->
  step s e = Some s' -> s' = s.
Proof.
  intros St Tr P.
  assert (V : view (hooks s)
              = Normal {| export_button := true;
                          main := falsy_child (result (hooks s)) |})
    by (unfold view; rewrite St; cbn [AppState_eqb]; now rewrite Tr).
  destruct (falsy_child_plain (result (hooks s))) as (He & Hd & Hh).
  destruct e; cbn [step]; unfold shows, has_export;
    rewrite ?V, ?P, ?pick_nil; cbn [main export_button]; rewrite ?He, ?Hd, ?Hh;
    try discriminate.
  unfold downloadMarkdown. rewrite Tr. cbn. now intros [= <-].
Qed.

Lemma completed_without_result_is_stuck_witness :
  after [SelectFile (Some meeting_mp3) None; ReaderLoad 0 data_url;
         ModelSettles 0 (Response (Some "null")); ExportReport]
  = replied "null".
Proof.
  apply (completed_without_result_is_stuck (replied "null") ExportReport
           (after [SelectFile (Some meeting_mp3) None; ReaderLoad 0 data_url;
                   ModelSettles 0 (Response (Some "null")); ExportReport]));
    reflexivity.
Defined.

Lemma get_truthy (v : JSValue) (key : string) :
  truthy v = true -> get v key = Normal (field v key).
Proof. destruct v; try discriminate; intros _; try reflexivity. apply get_object. Qed.

(** X8: when the reply parsed to a truthy value whose [actionItems] is
    no array (the member is missing, say), rendering throws a TypeError:
    the page is gone, and with it every control. *)
Theorem result_without_items_breaks_page (s : System) (e : Event) :
  state (hooks s) = COMPLETED ->
  truthy (result (hooks s)) = true ->
  (forall items, field (result (hooks s)) "actionItems" <> JArray items) ->
  pending s = [] ->
  view (hooks s) = Throw TypeError /\ step s e = None.
Proof.
  intros St Tr N P.
  assert (V : view (hooks s) = Throw TypeError).
  { unfold view. rewrite St, Tr. cbn [AppState_eqb bind]. unfold dashboard.
    rewrite !(get_truthy _ _ Tr). cbn [bind].
    destruct (field (result (hooks s)) "actionItems") eqn:E; try reflexivity.
    now destruct (N items). }
  split; [exact V|].
  destruct e; cbn [step]; unfold shows, has_export; rewrite ?V, ?P, ?pick_nil;
    reflexivity.
Qed.

Lemma result_without_items_breaks_page_witness :
  view (hooks (replied "{}")) = Throw TypeError
  /\ step (replied "{}") UploadNewFile = None.
Proof.
  apply (result_without_items_breaks_page (replied "{}") UploadNewFile);
    try reflexivity.
  intros items. vm_compute. discriminate.
Defined.

End DeadEnds.

Section Page.



End Page.

Section Cycle.

Lemma request_for_or_else (f : File) (url : string) :
  {| mimeType := or_else (Some (type f)) "audio/mpeg";
     data := nth_error (split comma url) 1 |} = request_for f url.
Proof. unfold request_for. now destruct (type f). Qed.

Lemma cycle_from_idle (s : System) (f : File) (url text : string) (v : JSValue) :
  state (hooks s) = IDLE ->
  pending s = [] ->
  (size f <= 20 * 1024 * 1024)%Z ->
  JSON.parse text = Normal v ->
  run s [SelectFile (Some f) None; ReaderLoad 0 url;
         ModelSettles 0 (Response (Some text))]
  = Some {| hooks := {| state := COMPLETED; error := None; result := v;
                        fileName := Some (name f) |};
            pending := [];
            calls := (calls s ++ [request_for f url])%list;
            uncaught := uncaught s;
            downloads := downloads s |}.
Proof.
  intros St P Sz Pa.
  assert (A : analyzeAudio (Response (Some text)) = Normal v).
  { cbn [analyzeAudio]. destruct (String.eqb_spec text "") as [->|_];
      [discriminate Pa | exact Pa]. }
  cbn [run step]. unfold shows. rewrite (view_in_idle _ St). cbn [main existsb is_hero orb].
  unfold handleFileUpload.
  replace (size f >? 20 * 1024 * 1024)%Z with false
    by (symmetry; rewrite Z.gtb_ltb; apply Z.ltb_ge; lia).
  cbn [pending with_pending with_hooks]. rewrite P. cbn [app pick].
  unfold onload. cbn [pending with_pending with_hooks call hooks calls app pick].
  unfold onload_resume. rewrite A. rewrite request_for_or_else. reflexivity.
Qed.

(** X10: from IDLE with nothing in flight, selecting a file within the
    limit, the end of its read and a reply that parses lead to
    COMPLETED with that parsed value as result, the name of the file
    stored, no error, one call made and nothing left in flight. *)
Theorem upload_cycle (s : System) (f : File) (url text : string) (v : JSValue) :
  state (hooks s) = IDLE ->
  pending s = [] ->
  (size f <= 20 * 1024 * 1024)%Z ->
  JSON.parse text = Normal v ->
  run s [SelectFile (Some f) None; ReaderLoad 0 url;
         ModelSettles 0 (Response (Some text))]
  = Some {| hooks := {| state := COMPLETED; error := None; result := v;
                        fileName := Some (name f) |};
            pending := [];
            calls := (calls s ++ [request_for f url])%list;
            uncaught := uncaught s;
            downloads := downloads s |}.
Proof. exact (cycle_from_idle s f url text v). Qed.

Lemma upload_cycle_witness :
  run initial [SelectFile (Some meeting_mp3) None; ReaderLoad 0 data_url;
               ModelSettles 0 (Response (Some "[]"))]
  = Some {| hooks := {| state := COMPLETED; error := None; result := JArray [];
                        fileName := Some (name meeting_mp3) |};
            pending := [];
            calls := (calls initial ++ [request_for meeting_mp3 data_url])%list;
            uncaught := uncaught initial;
            downloads := downloads initial |}.
Proof.
  apply (upload_cycle initial meeting_mp3 data_url "[]" (JArray [])).
  - reflexivity.
  - reflexivity.
  - vm_compute. discriminate.
  - reflexivity.
Defined.



Ltac same := let N := fresh in intros N; exfalso; apply N; reflexivity.

(** X12: what an event can change.  The result changes only when a
    reply with text settles, the file name only when a file within the
    limit is selected, the list of calls only when a read ends, and the
    downloads only on the export and asset buttons. *)
Theorem what_an_event_changes (s : System) (e : Event) (s' : System) :
  step s e = Some s' ->
  (result (hooks s') <> result (hooks s) ->
     exists i text, e = ModelSettles i (Response (Some text)) /\ text <> "")
  /\ (fileName (hooks s') <> fileName (hooks s) ->
        exists f setup, e = SelectFile (Some f) setup /\ (size f <= 20 * 1024 * 1024)%Z)
  /\ (calls s' <> calls s -> exists i url, e = ReaderLoad i url)
  /\ (downloads s' <> downloads s -> e = ExportReport \/ exists a, e = DownloadAsset a).
Proof.
  intros H. destruct e; cbn [step] in H.
  - destruct (shows is_hero (hooks s)); [|discriminate]. injection H as <-.
    unfold handleFileUpload. destruct file as [f|]; [|repeat split; same].
    destruct (size f >? 20 * 1024 * 1024)%Z eqn:Sz; [repeat split; same|].
    rewrite Z.gtb_ltb in Sz. apply Z.ltb_ge in Sz.
    destruct setup as [err|]; (repeat split; try same);
      intros _; do 2 eexists; (split; [reflexivity | exact Sz]).
  - destruct (pick i (pending s)) as [[[f|q] rest]|]; try discriminate.
    injection H as <-. repeat split; try same. intros _. now do 2 eexists.
  - destruct (pick i (pending s)) as [[[f|q] rest]|]; try discriminate.
    injection H as <-. repeat split; same.
  - destruct (pick i (pending s)) as [[[f|q] rest]|]; try discriminate.
    injection H as <-. unfold onload_resume.
    destruct (analyzeAudio r) as [v|err] eqn:A; (repeat split; try same).
    intros _. apply analyzeAudio_normal in A as (text & -> & N & _). now exists i, text.
  - destruct (shows is_error_card (hooks s)); [|discriminate]. injection H as <-.
    repeat split; same.
  - destruct (shows is_dashboard (hooks s)); [|discriminate]. injection H as <-.
    repeat split; same.
  - destruct (has_export (hooks s)); [|discriminate].
    destruct (downloadMarkdown_frame s s' H) as (H1 & H2 & H3).
    rewrite H1, H3. repeat split; try same. intros _. now left.
  - destruct (shows is_hero (hooks s)); [|discriminate]. injection H as <-.
    repeat split; try same. intros _. right. now exists a.
Qed.

Lemma what_an_event_changes_witness :
  exists i text,
    ModelSettles 0 (Response (Some reply_ok)) = ModelSettles i (Response (Some text))
    /\ text <> "".
Proof.
  apply (what_an_event_changes
           (after [SelectFile (Some meeting_mp3) None; ReaderLoad 0 data_url])
           (ModelSettles 0 (Response (Some reply_ok)))
           (replied reply_ok)).
  - reflexivity.
  - vm_compute. discriminate.
Defined.

End Cycle.

Section ReportText.

Lemma ws1_len (a : N) (l : list N) : ws1 a = true -> ws_len_rev (a :: l) = 1.
Proof. intros H. cbn [ws_len_rev]. now rewrite H. Qed.

Lemma strip_plain (wl : list N -> nat) (fuel : nat) (a : N) (l : list N) :
  (forall pre a post, plain a -> wl (pre ++ a :: post)%list <= List.length pre) ->
  plain a -> strip wl fuel (a :: l) = a :: l.
Proof.
  intros W Ha. destruct fuel as [|fuel]; [reflexivity|]. cbn [strip].
  pose proof (W [] a l Ha) as H. cbn in H.
  destruct (wl (a :: l)); [reflexivity | lia].
Qed.

(** White space in front of a visible character goes, and nothing else. *)
Lemma strip_run (ws : list N) (fuel : nat) (a : N) (l : list N) :
  Forall (fun c => ws1 c = true) ws -> List.length ws <= fuel -> plain a ->
  strip ws_len_rev fuel (ws ++ a :: l)%list = a :: l.
Proof.
  intros F. revert fuel. induction F as [|c ws Hc _ IH]; intros fuel L Ha.
  - apply strip_plain; [exact ws_len_rev_within | exact Ha].
  - destruct fuel as [|fuel]; [cbn in L; lia|]. cbn [app strip].
    rewrite (ws1_len c _ Hc). cbn [skipn]. apply IH; [cbn in L; lia | exact Ha].
Qed.

Lemma strip_front (c : N) (fuel : nat) (l : list N) :
  ws1 c = true -> strip ws_len (S fuel) (c :: l) = strip ws_len fuel l.
Proof. intros H. cbn [strip ws_len]. now rewrite H. Qed.

Lemma trim_exact (a b : ascii) (mid : string) :
  plain (code a) -> plain (code b) ->
  trim (LF ++ String a (mid ++ String b (LF ++ "    "))) = String a (mid ++ String b "").
Proof.
  intros Ha Hb. unfold trim.
  change (LF ++ String a (mid ++ String b (LF ++ "    ")))
    with (String (ascii_of_N 10) (String a (mid ++ String b (LF ++ "    ")))).
  cbn [String.length]. rewrite !codes_cons, codes_app, codes_cons.
  change (code (ascii_of_N 10)) with 10%N.
  change (codes (LF ++ "    ")) with [10; 32; 32; 32; 32]%N.
  rewrite (strip_front 10%N) by reflexivity.
  rewrite (strip_plain ws_len _ (code a) _ ws_len_within Ha).
  change (code a :: (codes mid ++ code b :: [10; 32; 32; 32; 32]%N))%list
    with ([] ++ code a :: (codes mid ++ code b :: [10; 32; 32; 32; 32]%N))%list.
  rewrite (rev_middle [] (codes mid) [10; 32; 32; 32; 32]%N (code a) (code b)).
  change (rev [10; 32; 32; 32; 32]%N) with [32; 32; 32; 32; 10]%N.
  rewrite (strip_run [32; 32; 32; 32; 10]%N).
  - cbn [rev app]. rewrite rev_app_distr. cbn [rev app]. rewrite rev_involutive.
    rewrite of_codes_cons, of_codes_app, of_codes_codes.
    change (of_codes [code b]) with (of_codes (code b :: [])).
    rewrite of_codes_cons. reflexivity.
  - repeat constructor.
  - cbn [app List.length]. rewrite length_app. cbn [List.length]. lia.
  - exact Hb.
Qed.

Lemma item_lines_exact (items : list JSValue) :
  forallb ActionItem items = true ->
  item_lines items = Normal (map Some (map line_of items)).
Proof.
  induction items as [|item items IH]; cbn [forallb item_lines map]; intros H.
  - reflexivity.
  - apply andb_true_iff in H as [Hi Hr]. rewrite (IH Hr).
    destruct item; try discriminate. cbn [ActionItem] in Hi.
    apply andb_true_iff in Hi as [Ht Ha].
    apply is_string_inv in Ht as [t Ht], Ha as [a Ha].
    unfold item_line, line_of. rewrite !get_object, Ht, Ha. reflexivity.
Qed.

(** X13: for a result of the declared shape whose transcription ends in
    a visible character, the downloaded text is the template from its
    title to the end of the transcription: the line break before the
    title and the line break and blanks after the transcription are
    gone, and nothing else. *)
Theorem report_is_template (fn : option string) (r : JSValue) (tr : string) (b : ascii) :
  AnalysisResult r = true ->
  field r "transcription" = JString (tr ++ String b "") ->
  plain (code b) ->
  content fn r = Normal (Some (report_of fn r)).
Proof.
  intros H Htr Hb.
  destruct r as [| | | | |?|fields]; try discriminate.
  cbn [AnalysisResult] in H.
  repeat (apply andb_true_iff in H as [H ?]).
  destruct (field (JObject fields) "actionItems") as [| | | | |items|] eqn:Ei;
    try discriminate.
  repeat match goal with
         | H : is_string _ = true |- _ => apply is_string_inv in H as [? H]
         end.
  match goal with
  | H : Sentiment _ = true |- _ =>
      destruct (field (JObject fields) "sentiment") as [| | | |se| |] eqn:Es;
      try discriminate H
  end.
  match goal with
  | H : forallb ActionItem items = true |- _ => pose proof (item_lines_exact items H) as Hls
  end.
  unfold content, report_of, items_of. rewrite !get_object. cbn [bind].
  repeat match goal with
         | H : field _ _ = _ |- _ => rewrite H
         end.
  cbn [as_array bind]. rewrite Hls. cbn [bind ToString text_of].
  rewrite all_some_map_Some. do 2 f_equal.
  set (title := match fn with Some n => n | None => "null" end).
  set (lines := join LF (map line_of items)).
  match goal with
  | |- trim (template _ ?su ?se' ?re _ _) = _ =>
      pose (mid := " Audio Analysis: " ++ title ++ LF ++ LF
                   ++ "## Executive Summary" ++ LF ++ su ++ LF ++ LF
                   ++ "## Sentiment Analysis" ++ LF ++ "**Tone:** " ++ se' ++ LF
                   ++ "**Reasoning:** " ++ re ++ LF ++ LF
                   ++ "## Action Items" ++ LF ++ lines ++ LF ++ LF
                   ++ "## Full Transcription" ++ LF ++ tr);
      replace (template title su se' re lines (tr ++ String b ""))
        with (LF ++ String "#" (mid ++ String b (LF ++ "    ")))
        by (unfold template, mid, LF; rewrite !append_assoc; reflexivity)
  end.
  rewrite (trim_exact "#" b mid plain_hash Hb).
  unfold mid, LF. rewrite !append_assoc. reflexivity.
Qed.

Lemma report_is_template_witness :
  content (Some "meeting.mp3") (result (hooks (replied reply_ok)))
  = Normal (Some (report_of (Some "meeting.mp3") (result (hooks (replied reply_ok))))).
Proof.
  apply (report_is_template (Some "meeting.mp3") (result (hooks (replied reply_ok)))
           "hell" "o"%char).
  - reflexivity.
  - reflexivity.
  - split; reflexivity.
Defined.

(** X14: an action item without [assignee] is written into the report
    with the word undefined for its assignee. *)
Theorem unassigned_line_says_undefined (fields : list (string * JSValue)) (t : string) :
  field (JObject fields) "task" = JString t ->
  lacks_assignee (JObject fields) = true ->
  item_line (JObject fields)
  = Normal (Some ("- [ ] **" ++ t ++ "** (Assignee: undefined)")).
Proof.
  intros Ht La. unfold item_line. rewrite !get_object, Ht.
  rewrite (lacks_assignee_field _ La). reflexivity.
Qed.

Lemma unassigned_line_says_undefined_witness :
  item_line (JObject [("task", JString "send notes")])
  = Normal (Some ("- [ ] **" ++ "send notes" ++ "** (Assignee: undefined)")).
Proof.
  apply (unassigned_line_says_undefined [("task", JString "send notes")] "send notes");
    reflexivity.
Defined.

End ReportText.

Section Shapes.

Lemma field_own (fields : list (string * JSValue)) (key : string) (v : JSValue) :
  field (JObject fields) key = v -> v <> JUndefined -> own fields key = Some v.
Proof.
  cbn [field]. destruct (own fields key); intros <- N; [reflexivity | congruence].
Qed.

Lemma items_conform (items : list JSValue) :
  forallb ActionItem items = true ->
  forallb (conforms (OBJECT [("task", STRING); ("assignee", STRING)] ["task"; "assignee"]))
    items = true.
Proof.
  induction items as [|item items IH]; cbn [forallb]; intros H; [reflexivity|].
  apply andb_true_iff in H as [Hi Hr]. rewrite (IH Hr), andb_true_r.
  destruct item; try discriminate. cbn [ActionItem] in Hi.
  apply andb_true_iff in Hi as [Ht Ha].
  apply is_string_inv in Ht as [t Ht], Ha as [a Ha].
  apply field_own in Ht; [|discriminate]. apply field_own in Ha; [|discriminate].
  cbn [conforms forallb fst snd]. now rewrite Ht, Ha.
Qed.

(** X15: the schema sent with the request admits every value of the
    shape of [AnalysisResult]; it is wider, since it takes any text for
    the sentiment. *)
Theorem schema_admits_AnalysisResult :
  (forall v, AnalysisResult v = true -> conforms responseSchema v = true)
  /\ exists v, conforms responseSchema v = true /\ AnalysisResult v = false.
Proof.
  split.
  - intros v H. destruct v as [| | | | |?|fields]; try discriminate.
    cbn [AnalysisResult] in H.
    repeat (apply andb_true_iff in H as [H ?]).
    destruct (field (JObject fields) "actionItems") as [| | | | |items|] eqn:Ei;
      try discriminate.
    repeat match goal with
           | H : is_string _ = true |- _ => apply is_string_inv in H as [? H]
           end.
    match goal with
    | H : Sentiment _ = true |- _ =>
        destruct (field (JObject fields) "sentiment") as [| | | |se| |] eqn:Es;
        try discriminate H
    end.
    repeat match goal with
           | H : field _ _ = _ |- _ => apply field_own in H; [|discriminate]
           end.
    match goal with
    | H : forallb ActionItem items = true |- _ => pose proof (items_conform items H) as Hi
    end.
    unfold responseSchema. cbn [conforms forallb fst snd].
    repeat match goal with
           | H : own fields _ = _ |- _ => rewrite H
           end.
    cbn [conforms forallb fst snd andb] in Hi |- *. now rewrite Hi.
  - exists (JObject [("transcription", JString "t"); ("executiveSummary", JString "s");
                     ("actionItems", JArray []); ("sentiment", JString "Mixed");
                     ("sentimentReasoning", JString "r")]).
    split; reflexivity.
Qed.

Lemma schema_admits_AnalysisResult_witness :
  conforms responseSchema (result (hooks (replied reply_ok))) = true.
Proof.
  apply (proj1 schema_admits_AnalysisResult (result (hooks (replied reply_ok)))).
  reflexivity.
Defined.

Lemma split_head_free (c : ascii) (s : string) :
  match split c s with
  | seg :: _ => free_of c seg
  | [] => True
  end.
Proof.
  unfold free_of. induction s as [|a s IH]; cbn [split].
  - cbn. tauto.
  - destruct (split c s) as [|seg segs] eqn:E; [now destruct (split_nonempty c s)|].
    destruct (Ascii.eqb_spec a c) as [->|N]; cbn [list_ascii_of_string In]; [tauto|].
    intros [E'|I]; [congruence | exact (IH I)].
Qed.

(** X16: the name of the exported report always is a non-empty stem
    without any dot, followed by _report.md. *)
Theorem download_name_shape (fn : option string) :
  exists x, download_name fn = x ++ "_report.md" /\ x <> "" /\ free_of dot x.
Proof.
  assert (A : "analysis" <> "" /\ free_of dot "analysis")
    by (split; [discriminate | vm_compute; intuition discriminate]).
  destruct fn as [n|]; [|exists "analysis"; now split].
  rewrite download_name_stem. unfold stem.
  pose proof (split_head_free dot n) as F.
  destruct (split dot n) as [|[|c seg] segs]; try (exists "analysis"; now split).
  exists (String c seg). cbn [or_else]. repeat split; [discriminate | exact F].
Qed.

End Shapes.

Section Recovery.

(** X17: an error is recovered from: in a reachable ERROR state, Try
    Again followed by a good upload ends in COMPLETED with the new
    result and file name, and the old error message is gone. *)
Theorem retry_after_error (s : System) (f : File) (url text : string) (v : JSValue) :
  reachable s ->
  state (hooks s) = ERROR ->
  (size f <= 20 * 1024 * 1024)%Z ->
  JSON.parse text = Normal v ->
  run s [TryAgain; SelectFile (Some f) None; ReaderLoad 0 url;
         ModelSettles 0 (Response (Some text))]
  = Some {| hooks := {| state := COMPLETED; error := None; result := v;
                        fileName := Some (name f) |};
            pending := [];
            calls := (calls s ++ [request_for f url])%list;
            uncaught := uncaught s;
            downloads := downloads s |}.
Proof.
  intros R St Sz Pa.
  assert (P : pending s = []).
  { apply single_flight_idle; [exact (proj1 (reachable_sound s R)) | now rewrite St]. }
  change (run s (TryAgain :: ?es))
    with (match step s TryAgain with Some s1 => run s1 es | None => None end).
  cbn [step]. unfold shows. rewrite (view_in_error _ St).
  cbn [main existsb is_error_card orb].
  exact (cycle_from_idle (with_hooks (setState IDLE (hooks s)) s) f url text v
           eq_refl P Sz Pa).
Qed.

Lemma retry_after_error_witness :
  run (after [SelectFile (Some too_large) None])
      [TryAgain; SelectFile (Some meeting_mp3) None; ReaderLoad 0 data_url;
       ModelSettles 0 (Response (Some "[]"))]
  = Some {| hooks := {| state := COMPLETED; error := None; result := JArray [];
                        fileName := Some (name meeting_mp3) |};
            pending := [];
            calls := (calls (after [SelectFile (Some too_large) None])
                      ++ [request_for meeting_mp3 data_url])%list;
            uncaught := uncaught (after [SelectFile (Some too_large) None]);
            downloads := downloads (after [SelectFile (Some too_large) None]) |}.
Proof.
  apply (retry_after_error (after [SelectFile (Some too_large) None])
           meeting_mp3 data_url "[]" (JArray [])).
  - apply (reachable_run [SelectFile (Some too_large) None] initial);
      [apply reach_initial | reflexivity].
  - reflexivity.
  - vm_compute. discriminate.
  - reflexivity.
Defined.

(** X18: each control acts only in the state whose page has it: a file
    can be selected and an asset downloaded in IDLE alone, Try Again
    acts in ERROR alone, Upload New File and the export in COMPLETED
    alone.  No second upload can start while one is in flight. *)
Theorem controls_follow_state (s : System) (e : Event) (s' : System) :
  step s e = Some s' ->
  match e with
  | SelectFile _ _ | DownloadAsset _ => state (hooks s) = IDLE
  | TryAgain => state (hooks s) = ERROR
  | UploadNewFile => state (hooks s) = COMPLETED /\ truthy (result (hooks s)) = true
  | ExportReport => state (hooks s) = COMPLETED
  | ReaderLoad _ _ | ReaderError _ | ModelSettles _ _ => pending s <> []
  end.
Proof.
  destruct e; cbn [step].
  - destruct (shows is_hero (hooks s)) eqn:V; [|discriminate].
    intros _. now apply shows_hero_state.
  - destruct (pick i (pending s)) eqn:P; [|discriminate].
    intros _ E. rewrite E, pick_nil in P. discriminate.
  - destruct (pick i (pending s)) eqn:P; [|discriminate].
    intros _ E. rewrite E, pick_nil in P. discriminate.
  - destruct (pick i (pending s)) eqn:P; [|discriminate].
    intros _ E. rewrite E, pick_nil in P. discriminate.
  - destruct (shows is_error_card (hooks s)) eqn:V; [|discriminate].
    intros _. now apply shows_error_card_state.
  - destruct (shows is_dashboard (hooks s)) eqn:V; [|discriminate].
    intros _. now apply shows_dashboard_state.
  - destruct (has_export (hooks s)) eqn:V; [|discriminate].
    intros _. now apply has_export_state.
  - destruct (shows is_hero (hooks s)) eqn:V; [|discriminate].
    intros _. now apply shows_hero_state.
Qed.

Lemma controls_follow_state_witness :
  state (hooks (after [SelectFile (Some too_large) None])) = ERROR.
Proof.
  apply (controls_follow_state (after [SelectFile (Some too_large) None]) TryAgain
           (after [SelectFile (Some too_large) None; TryAgain])).
  reflexivity.
Defined.

End Recovery.
